(** * Auto-request-accept bot: user table, handlers and broadcast pass

    A shallow embedding of [src/main.py].  The [users] table is a finite map
    from [user_id] (its INTEGER PRIMARY KEY) to the remaining columns; the
    Telegram transport is an oracle that answers every outbound call with
    success or with an exception; handlers are computations in a small
    state-and-exception monad over the process state. *)

From stdpp Require Import gmap strings list fin_maps sorting.

Local Open Scope Z_scope.

(** ** The users table (main.py, lines 46-108) *)

(** One row of [users] without its key.  [is_blocked] is the INTEGER column
    that the program only ever writes as 0 or 1. *)
Record Row := mkRow {
  username : option string;
  first_name : string;
  last_seen : Z;
  is_blocked : bool
}.

Abbreviation Store := (gmap Z Row).

Definition set_blocked (r : Row) : Row :=
  mkRow (username r) (first_name r) (last_seen r) true.

Definition blocked_rows (db : Store) : Store :=
  filter (λ kv, is_blocked kv.2 = true) db.

Definition active_rows (db : Store) : Store :=
  filter (λ kv, is_blocked kv.2 = false) db.

(** INSERT OR REPLACE INTO users (...) VALUES (?, ?, ?, CURRENT_TIMESTAMP, 0) *)
Definition add_or_update_user (now : Z) (user_id : Z) (uname : option string)
    (fname : string) (db : Store) : Store :=
  <[user_id := mkRow uname fname now false]> db.

(** SELECT user_id FROM users WHERE is_blocked = 0; the scan of a table
    with an integer primary key goes by ascending key. *)
Definition get_active_users (db : Store) : list Z :=
  merge_sort Z.le (map_to_list (active_rows db)).*1.

(** UPDATE users SET is_blocked = 1 WHERE user_id = ? *)
Definition block_user (user_id : Z) (db : Store) : Store :=
  alter set_blocked user_id db.

(** DELETE FROM users WHERE is_blocked = 1; returns [cur.rowcount]. *)
Definition clean_blocked (db : Store) : Z * Store :=
  (Z.of_nat (size (blocked_rows db)), active_rows db).

(** The two COUNT queries and [blocked = total - active]. *)
Definition get_stats (db : Store) : Z * Z * Z :=
  let total := Z.of_nat (size db) in
  let active := Z.of_nat (size (active_rows db)) in
  let blocked := total - active in
  (total, active, blocked).

(** The arguments of one [add_or_update_user] call on a fixed identifier,
    with the clock reading at the call. *)
Record Upsert := mkUpsert {
  up_username : option string;
  up_first_name : string;
  up_now : Z
}.

Definition apply_upsert (user_id : Z) (db : Store) (u : Upsert) : Store :=
  add_or_update_user (up_now u) user_id (up_username u) (up_first_name u) db.

Definition apply_upserts (user_id : Z) (us : list Upsert) (db : Store) :
    Store :=
  foldl (apply_upsert user_id) db us.

(** The rows of the table, as a scan returns them, that carry a given key. *)
Definition rows_with_id (user_id : Z) (db : Store) : list (Z * Row) :=
  filter (λ kv, kv.1 = user_id) (map_to_list db).

(** ** Telegram objects and the transport (main.py, lines 9-17) *)

Record User := mkUser {
  tg_id : Z;
  tg_username : option string;
  tg_first_name : string
}.

Record Chat := mkChat {
  chat_id : Z;
  title : string
}.

(** A photo size, a video or a document: only [file_id] is read. *)
Record File := mkFile { file_id : string }.

(** The fields of [telegram.Message] the program reads.  [photo] is the
    tuple of sizes, empty when the message carries no photo. *)
Record Message := mkMessage {
  msg_chat : Z;
  text : option string;
  caption : option string;
  photo : list File;
  video : option File;
  document : option File
}.

(** [telegram.error]: [Forbidden] is a subclass of [TelegramError]. *)
Inductive Exn := Forbidden | TelegramError.

(** What a handler can raise: an error of the transport, or the
    [AttributeError] of reading an attribute of [None]. *)
Inductive Exception := Telegram (e : Exn) | AttributeError.
Coercion Telegram : Exn >-> Exception.

Definition isinstance_Forbidden (e : Exception) : bool :=
  match e with Telegram Forbidden => true | _ => false end.

(** The error bound by [except TelegramError as e], when it matches. *)
Definition as_TelegramError (e : Exception) : option Exn :=
  match e with Telegram t => Some t | AttributeError => None end.

(** The message texts the program builds, by template and arguments. *)
Inductive Text :=
| start_text (fname : string)
| admin_panel_text (total active blocked : Z)
| welcome_text (fname chat_title : string)
| not_allowed_text
| send_broadcast_now_text
| cleaned_text (deleted : Z)
| broadcast_done_text (success failed : Z)
| plain_text (s : string).

(** The outbound operations of the transport.  Keyboards and parse modes
    are constants of the program and are left out. *)
Inductive Call :=
| reply_text (chat : Z) (t : Text)
| approve_chat_join_request (chat user : Z)
| send_message (chat : Z) (t : Text)
| send_photo (chat : Z) (file cap : string)
| send_video (chat : Z) (file cap : string)
| send_document (chat : Z) (file cap : string)
| answer (alert : option Text)
| edit_message_text (t : Text).

(** What the transport does with the [n]-th outbound call of the process:
    [None] when the call returns, [Some e] when it raises [e]. *)
Definition Transport := nat → Call → option Exn.

Inductive LogRecord :=
| info_blocked_or_never_started (user : Z)
| error_approving (e : Exn).

(** The process state: the table, [context.user_data] per user, and the
    record of outbound calls (with their outcome) and log lines so far. *)
Record World := mkWorld {
  db : Store;
  user_data : gmap Z (gmap string bool);
  calls : list (Call * option Exn);
  log : list LogRecord
}.

(** ** Computations that read and write the state and may raise *)

Inductive Res (A : Type) :=
| Ret (a : A)
| Raise (e : Exception).
Arguments Ret {A} a.
Arguments Raise {A} e.

Definition M (A : Type) : Type := World → Res A * World.

Definition ret {A} (a : A) : M A := λ w, (Ret a, w).

Definition raise {A} (e : Exception) : M A := λ w, (Raise e, w).

Definition bind {A B} (m : M A) (k : A → M B) : M B := λ w,
  match m w with
  | (Ret a, w') => k a w'
  | (Raise e, w') => (Raise e, w')
  end.

Declare Scope py_scope.
Delimit Scope py_scope with py.
Notation "x <- m ;; k" := (bind m (λ x, k))
  (at level 100, m at next level, right associativity) : py_scope.
Notation "'let*' p ':=' m 'in' k" := (bind m (λ x, let 'p := x in k))
  (at level 10, p pattern, k at level 200) : py_scope.
Notation "m ;; k" := (bind m (λ _, k))
  (at level 100, right associativity) : py_scope.
Local Open Scope py_scope.

(** An [except] clause: [Some h] when it catches the exception. *)
Definition Clause (A : Type) : Type := Exception → option (M A).

Definition except_Forbidden {A} (h : M A) : Clause A := λ e,
  if isinstance_Forbidden e then Some h else None.

Definition except_TelegramError {A} (h : Exn → M A) : Clause A := λ e,
  h <$> as_TelegramError e.

Fixpoint first_clause {A} (cs : list (Clause A)) (e : Exception) :
    option (M A) :=
  match cs with
  | [] => None
  | c :: cs' => match c e with Some h => Some h | None => first_clause cs' e end
  end.

(** [try: body except ...]: the first clause that matches handles the
    exception, and an exception no clause matches propagates. *)
Definition try_except {A} (body : M A) (cs : list (Clause A)) : M A := λ w,
  match body w with
  | (Ret a, w') => (Ret a, w')
  | (Raise e, w') =>
      match first_clause cs e with
      | Some h => h w'
      | None => (Raise e, w')
      end
  end.

(** [for x in xs: body], threading the local variables the body updates. *)
Fixpoint for_in {A S} (xs : list A) (body : A → S → M S) (s : S) : M S :=
  match xs with
  | [] => ret s
  | x :: xs' => s' <- body x s ;; for_in xs' body s'
  end.

Definition read_db {A} (q : Store → A) : M A := λ w, (Ret (q (db w)), w).

Definition write_db (f : Store → Store) : M unit := λ w,
  (Ret (), mkWorld (f (db w)) (user_data w) (calls w) (log w)).

(** A statement that changes the table and returns a value. *)
Definition exec_db {A} (f : Store → A * Store) : M A := λ w,
  let '(a, d) := f (db w) in
  (Ret a, mkWorld d (user_data w) (calls w) (log w)).

Definition logger (r : LogRecord) : M unit := λ w,
  (Ret (), mkWorld (db w) (user_data w) (calls w) (log w ++ [r])).

(** [context.user_data.get(key)] for the dictionary of user [u]. *)
Definition user_data_get (u : Z) (key : string) : M (option bool) := λ w,
  (Ret (user_data w !! u ≫= λ d, d !! key), w).

(** [context.user_data[key] = v] for the dictionary of user [u]. *)
Definition user_data_set (u : Z) (key : string) (v : bool) : M unit := λ w,
  let d := default ∅ (user_data w !! u) in
  (Ret (), mkWorld (db w) (<[u := <[key := v]> d]> (user_data w))
             (calls w) (log w)).

(** Reading an attribute of a value that may be [None]. *)
Definition attr {A} (o : option A) : M A :=
  match o with
  | Some a => ret a
  | None => raise AttributeError
  end.

(** Python truthiness of the value [dict.get] returns. *)
Definition truthy (v : option bool) : bool :=
  match v with Some true => true | _ => false end.

(** [a or b] on an optional string and a string. *)
Definition str_or (a : option string) (b : string) : string :=
  match a with
  | Some s => if bool_decide (s = "") then b else s
  | None => b
  end.

(** ** The handlers (main.py, lines 114-234) *)

Section handlers.
Variable ADMIN_ID : Z.
Variable bot : Transport.
Variable now : Z.

(** [await] of one transport call. *)
Definition await (c : Call) : M unit := λ w,
  let r := bot (length (calls w)) c in
  (match r with None => Ret () | Some e => Raise e end,
   mkWorld (db w) (user_data w) (calls w ++ [(c, r)]) (log w)).

(** [message] is [update.message], [None] on an edited message. *)
Definition show_admin_panel (message : option Message) : M unit :=
  let* (total, active, blocked) := read_db get_stats in
  msg <- attr message ;;
  await (reply_text (msg_chat msg) (admin_panel_text total active blocked)).

Definition start (user : User) (message : option Message) : M unit :=
  write_db (add_or_update_user now (tg_id user) (tg_username user)
              (tg_first_name user)) ;;
  if bool_decide (tg_id user = ADMIN_ID) then
    show_admin_panel message
  else
    msg <- attr message ;;
    await (reply_text (msg_chat msg) (start_text (tg_first_name user))).

Definition handle_join_request (user : User) (chat : Chat) : M unit :=
  try_except
    (await (approve_chat_join_request (chat_id chat) (tg_id user)) ;;
     write_db (add_or_update_user now (tg_id user) (tg_username user)
                 (tg_first_name user)) ;;
     let welcome := welcome_text (tg_first_name user) (title chat) in
     try_except
       (await (send_message (tg_id user) welcome))
       [except_Forbidden
          (logger (info_blocked_or_never_started (tg_id user)))])
    [except_TelegramError (λ e, logger (error_approving e))].

Definition admin_buttons (from_user : User) (data : string) : M unit :=
  await (answer None) ;;
  let user_id := tg_id from_user in
  if negb (bool_decide (user_id = ADMIN_ID)) then
    await (answer (Some not_allowed_text))
  else if bool_decide (data = "broadcast") then
    await (edit_message_text send_broadcast_now_text) ;;
    user_data_set user_id "broadcast" true
  else if bool_decide (data = "clean_db") then
    deleted <- exec_db clean_blocked ;;
    await (edit_message_text (cleaned_text deleted))
  else ret ().

(** Lines 216-224: the delivery of the captured message to one user. *)
Definition deliver (msg : Message) (text : string) (user_id : Z) : Call :=
  match photo msg with
  | p :: ps => send_photo user_id (file_id (List.last ps p)) text
  | [] =>
      match video msg with
      | Some v => send_video user_id (file_id v) text
      | None =>
          match document msg with
          | Some d => send_document user_id (file_id d) text
          | None => send_message user_id (plain_text text)
          end
      end
  end.

(** Lines 209-234: the pass over the active users, once the message is
    at hand. *)
Definition broadcast_pass (msg : Message) : M unit :=
  let text := str_or (text msg) (str_or (caption msg) "") in
  users <- read_db get_active_users ;;
  let* (success, failed) :=
    for_in users (λ user_id '(success, failed),
      try_except
        (await (deliver msg text user_id) ;;
         ret (success + 1, failed))
        [except_Forbidden
           (write_db (block_user user_id) ;; ret (success, failed + 1));
         except_TelegramError (λ _, ret (success, failed + 1))])
      (0, 0) in
  await (reply_text (msg_chat msg) (broadcast_done_text success failed)).

(** [effective_user] is [None] on a channel post and [message], which is
    [update.message], is [None] on an edited message or a channel post. *)
Definition broadcast (effective_user : option User)
    (message : option Message) : M unit :=
  user <- attr effective_user ;;
  if negb (bool_decide (tg_id user = ADMIN_ID)) then ret ()
  else
    flag <- user_data_get (tg_id user) "broadcast" ;;
    if negb (truthy flag) then ret ()
    else
      user_data_set (tg_id user) "broadcast" false ;;
      msg <- attr message ;;
      broadcast_pass msg.

(** ** Updates and their dispatch (main.py, lines 244-247) *)

(** The updates by the handler that takes them.  The command handler
    and the generic handler also take edited messages, and the generic
    handler channel posts: these carry no [update.message], and a channel
    post no [effective_user]. *)
Inductive Update :=
| StartCommand (effective_user : User) (message : option Message)
| ChatJoinRequest (from_user : User) (chat : Chat)
| CallbackQuery (from_user : User) (data : string)
| AnyMessage (effective_user : option User) (message : option Message).

Definition sender (u : Update) : option Z :=
  match u with
  | StartCommand user _ | ChatJoinRequest user _
  | CallbackQuery user _ => Some (tg_id user)
  | AnyMessage user _ => tg_id <$> user
  end.

Definition process_update (u : Update) : M unit :=
  match u with
  | StartCommand user message => start user message
  | ChatJoinRequest user chat => handle_join_request user chat
  | CallbackQuery user data => admin_buttons user data
  | AnyMessage user message => broadcast user message
  end.
End handlers.

(** ** Vocabulary for stating what a broadcast pass does *)

Global Instance Exn_eq_dec : EqDecision Exn.
Proof. solve_decision. Defined.

(** The delivery attempts of a pass over [us] whose first call is the
    [k]-th of the process: each recipient with the transport's answer. *)
Fixpoint attempts (bot : Transport) (msg : Message) (text : string)
    (k : nat) (us : list Z) : list (Z * option Exn) :=
  match us with
  | [] => []
  | u :: us' =>
      (u, bot k (deliver msg text u)) :: attempts bot msg text (S k) us'
  end.

(** The recipients whose attempt had outcome [o]. *)
Definition with_outcome (o : option Exn) (A : list (Z * option Exn)) : list Z :=
  (filter (λ a, a.2 = o) A).*1.

Definition count_outcome (o : option Exn) (A : list (Z * option Exn)) : Z :=
  Z.of_nat (length (with_outcome o A)).

(** The captured text, [msg.text or msg.caption or ""]. *)
Definition captured_text (msg : Message) : string :=
  str_or (text msg) (str_or (caption msg) "").

(** Whether user [u] is awaiting broadcast content. *)
Definition awaiting (w : World) (u : Z) : bool :=
  truthy (user_data w !! u ≫= λ d, d !! "broadcast").

(** The outbound calls made since the state [w]. *)
Definition new_calls (w w' : World) : list (Call * option Exn) :=
  drop (length (calls w)) (calls w').

(** The media kinds of a captured message, richest first, and the kind the
    precedence photo > video > document > plain text selects. *)
Inductive Media := Photo | Video | Document | PlainText.

Definition carries (msg : Message) (k : Media) : bool :=
  match k with
  | Photo => bool_decide (photo msg ≠ [])
  | Video => bool_decide (video msg ≠ None)
  | Document => bool_decide (document msg ≠ None)
  | PlainText => true
  end.

Definition richest (msg : Message) : Media :=
  default PlainText (head (filter (λ k, carries msg k = true)
                             [Photo; Video; Document; PlainText])).

(** The file a media kind refers to: the last size of a photo. *)
Definition media_file (msg : Message) (k : Media) : option string :=
  match k with
  | Photo => file_id <$> last (photo msg)
  | Video => file_id <$> video msg
  | Document => file_id <$> document msg
  | PlainText => None
  end.

(** The send operation, recipient, file and caption or body of a delivery. *)
Definition delivery_of (c : Call) :
    option (Media * Z * option string * string) :=
  match c with
  | send_photo u f t => Some (Photo, u, Some f, t)
  | send_video u f t => Some (Video, u, Some f, t)
  | send_document u f t => Some (Document, u, Some f, t)
  | send_message u (plain_text t) => Some (PlainText, u, None, t)
  | _ => None
  end.

(** The calls no [try] guards: replies to the sender of the update. *)
Definition unguarded (c : Call) : bool :=
  match c with
  | reply_text _ _ | answer _ | edit_message_text _ => true
  | _ => false
  end.

(** Running updates one after the other; the framework logs an exception
    that leaves a handler and goes on with the next update. *)
Definition run (ADMIN_ID : Z) (bot : Transport) (now : Z) (us : list Update)
    (w : World) : World :=
  foldl (λ w u, (process_update ADMIN_ID bot now u w).2) w us.

(** Updates that are neither a button press nor a generic message of the
    administrator. *)
Definition outside_panel (ADMIN_ID : Z) (u : Update) : Prop :=
  match u with
  | StartCommand _ _ | ChatJoinRequest _ _ => True
  | CallbackQuery user _ => tg_id user ≠ ADMIN_ID
  | AnyMessage user _ => tg_id <$> user ≠ Some ADMIN_ID
  end.

(** Updates other than an update of the administrator in the generic
    handler. *)
Definition not_admin_message (ADMIN_ID : Z) (u : Update) : Prop :=
  match u with
  | AnyMessage user _ => tg_id <$> user ≠ Some ADMIN_ID
  | _ => True
  end.

(** Updates other than the administrator's press of the broadcast
    button. *)
Definition not_broadcast_press (ADMIN_ID : Z) (u : Update) : Prop :=
  match u with
  | CallbackQuery user data => tg_id user ≠ ADMIN_ID ∨ data ≠ "broadcast"
  | _ => True
  end.

(** The state right after line 206: the broadcast flag of [u] reset and
    nothing else done. *)
Definition captured (u : Z) (w : World) : World :=
  (user_data_set u "broadcast" false w).2.

(** The text a delivery is to carry, by cases: the text of the message
    when it has one that is not empty, else such a caption, else the empty
    string. *)
Definition payload_text (msg : Message) : string :=
  match text msg, caption msg with
  | Some (String a s), _ => String a s
  | _, Some (String a s) => String a s
  | _, _ => ""
  end.

(** No unguarded call among [cs] has failed. *)
Definition quiet (cs : list (Call * option Exn)) : Prop :=
  Forall (λ c, unguarded c.1 = true → c.2 = None) cs.

(** The error of the first failed unguarded call among [cs]. *)
Definition escaping (cs : list (Call * option Exn)) : option Exn :=
  head (omap (λ c, if unguarded c.1 then c.2 else None) cs).

(** The summary a pass reports. *)
Definition summary (msg : Message) (A : list (Z * option Exn)) : Call :=
  reply_text (msg_chat msg)
    (broadcast_done_text (count_outcome None A)
       (count_outcome (Some Forbidden) A
        + count_outcome (Some TelegramError) A)).

(** The log line the join-request handler writes for a failed call. *)
Definition join_log_line (user : Z) (c : Call * option Exn) :
    option LogRecord :=
  match c with
  | (send_message _ _, Some Forbidden) =>
      Some (info_blocked_or_never_started user)
  | (_, Some e) => Some (error_approving e)
  | (_, None) => None
  end.

(** The deliveries among [cs] that raised. *)
Definition failed_deliveries (cs : list (Call * option Exn)) : Z :=
  Z.of_nat
    (length (filter (λ c, is_Some (delivery_of c.1) ∧ c.2 ≠ None) cs)).

Ltac run_handler :=
  unfold process_update, start, show_admin_panel, handle_join_request,
    admin_buttons, bind, try_except, await, write_db, read_db, exec_db,
    logger, user_data_set, user_data_get, attr, raise, ret; simpl.

(** The scenario of the specification: three blocked and two active rows. *)
Definition five_rows : Store :=
  <[1 := mkRow None "a" 0 true]> (<[2 := mkRow (Some "b") "b" 0 false]>
  (<[3 := mkRow None "c" 0 true]> (<[4 := mkRow None "d" 0 false]>
  (<[5 := mkRow None "e" 0 true]> ∅)))).

(** ** Concrete users, messages, transports and states *)

Definition the_admin : User := mkUser 9 (Some "boss") "Boss".
Definition alice : User := mkUser 1 (Some "alice") "Alice".
Definition bob : User := mkUser 2 None "Bob".
Definition channel : Chat := mkChat 100 "News".

Definition hello : Message := mkMessage 9 (Some "Hello") None [] None None.
Definition again : Message := mkMessage 9 (Some "Again") None [] None None.
Definition slash_start (chat : Z) : Message :=
  mkMessage chat (Some "/start") None [] None None.

Definition empty_world : World := mkWorld ∅ ∅ [] [].

(** A transport on which every call returns. *)
Definition reliable : Transport := λ _ _, None.

(** A transport on which every call raises a plain [TelegramError]. *)
Definition unreachable : Transport := λ _ _, Some TelegramError.

(** User [u] has blocked the bot: what is sent to [u] raises [Forbidden]. *)
Definition blocked_by (u : Z) : Transport := λ _ c,
  match c with
  | send_message v _ | send_photo v _ _ | send_video v _ _
  | send_document v _ _ => if bool_decide (v = u) then Some Forbidden else None
  | _ => None
  end.

Definition edit_fails : Transport := λ _ c,
  match c with edit_message_text _ => Some TelegramError | _ => None end.

Definition approve_fails : Transport := λ _ c,
  match c with
  | approve_chat_join_request _ _ => Some TelegramError
  | _ => None
  end.

(** Alice and Bob have started the bot. *)
Definition two_started : World :=
  run 9 reliable 0 [StartCommand alice (Some (slash_start 1));
                    StartCommand bob (Some (slash_start 2))] empty_world.

(** Alice and Bob have started the bot and the administrator has pressed
    the broadcast button. *)
Definition ready_to_broadcast : World :=
  run 9 reliable 0 [CallbackQuery the_admin "broadcast"] two_started.

(** A photo in two sizes with a caption, and a video besides. *)
Definition sale : Message :=
  mkMessage 9 None (Some "Sale") [mkFile "small"; mkFile "large"]
    (Some (mkFile "clip")) None.

(** Alice is known and blocked. *)
Definition alice_blocked : World :=
  mkWorld (<[1 := mkRow (Some "alice") "Alice" 0 true]> ∅) ∅ [] [].


(** The transport fails to acknowledge button presses. *)
Definition answer_fails : Transport := λ _ c,
  match c with answer _ => Some TelegramError | _ => None end.

(** The welcome message fails for a reason other than a block. *)
Definition welcome_fails : Transport := λ _ c,
  match c with send_message _ _ => Some TelegramError | _ => None end.

(** The administrator has pressed the broadcast button on an empty table. *)
Definition nobody_ready : World :=
  run 9 reliable 0 [CallbackQuery the_admin "broadcast"] empty_world.

(** ** Facts about the table *)

Section store_facts.
Implicit Types (db : Store) (r : Row).

Lemma lookup_blocked_rows db i :
  blocked_rows db !! i = (r ← db !! i; if is_blocked r then Some r else None).
Proof.
  unfold blocked_rows. destruct (db !! i) as [r|] eqn:E; simpl.
  - destruct (is_blocked r) eqn:B.
    + by apply map_lookup_filter_Some.
    + apply map_lookup_filter_None. right. intros x Hx. simpl.
      congruence.
  - apply map_lookup_filter_None. left. done.
Qed.

Lemma lookup_active_rows db i :
  active_rows db !! i = (r ← db !! i; if is_blocked r then None else Some r).
Proof.
  unfold active_rows. destruct (db !! i) as [r|] eqn:E; simpl.
  - destruct (is_blocked r) eqn:B.
    + apply map_lookup_filter_None. right. intros x Hx. simpl.
      congruence.
    + by apply map_lookup_filter_Some.
  - apply map_lookup_filter_None. left. done.
Qed.

(** Every row is either blocked or active, never both. *)
Lemma size_split db :
  size db = (size (active_rows db) + size (blocked_rows db))%nat.
Proof.
  unfold active_rows, blocked_rows.
  induction db as [|i r m Hi IH] using map_ind.
  - by rewrite !map_filter_empty, map_size_empty.
  - rewrite map_size_insert_None by done.
    destruct (is_blocked r) eqn:B.
    + rewrite (map_filter_insert_True (λ kv, is_blocked kv.2 = true)) by done.
      rewrite (map_filter_insert_not' (λ kv, is_blocked kv.2 = false))
        by (simpl; try intros y; congruence).
      rewrite map_size_insert_None; [lia|].
      apply map_lookup_filter_None; by left.
    + rewrite (map_filter_insert_True (λ kv, is_blocked kv.2 = false)) by done.
      rewrite (map_filter_insert_not' (λ kv, is_blocked kv.2 = true))
        by (simpl; try intros y; congruence).
      rewrite map_size_insert_None; [lia|].
      apply map_lookup_filter_None; by left.
Qed.

Lemma elem_of_get_active_users db i :
  i ∈ get_active_users db ↔ is_blocked <$> db !! i = Some false.
Proof.
  unfold get_active_users. rewrite merge_sort_Permutation.
  rewrite list_elem_of_fmap. split.
  - intros [[k r] [-> H]]. apply elem_of_map_to_list in H.
    rewrite lookup_active_rows in H. simpl in *.
    destruct (db !! k) as [r'|]; simpl in *; [|done].
    destruct (is_blocked r') eqn:B; simplify_eq. simpl. by f_equal.
  - intros H. destruct (db !! i) as [r|] eqn:E; simpl in H; [|done].
    exists (i, r). split; [done|]. apply elem_of_map_to_list.
    rewrite lookup_active_rows, E. simpl. simplify_eq.
    by destruct (is_blocked r).
Qed.

Lemma NoDup_get_active_users db : NoDup (get_active_users db).
Proof.
  unfold get_active_users. rewrite merge_sort_Permutation.
  apply NoDup_fst_map_to_list.
Qed.

Lemma length_get_active_users db :
  length (get_active_users db) = size (active_rows db).
Proof.
  unfold get_active_users.
  by rewrite merge_sort_Permutation, length_fmap, length_map_to_list.
Qed.

Lemma filter_all_False {A} (P : A → Prop) `{!∀ x, Decision (P x)}
    (l : list A) :
  Forall (λ x, ¬ P x) l → filter P l = [].
Proof.
  induction 1 as [|x l Hx _ IH]; [done|].
  by rewrite filter_cons_False.
Qed.

Lemma rows_with_id_Some db i r :
  db !! i = Some r → rows_with_id i db = [(i, r)].
Proof.
  intros H. unfold rows_with_id.
  rewrite <-(insert_id db i r H), <-insert_delete_eq.
  assert (Hd : delete i db !! i = None) by apply lookup_delete_eq.
  assert (Hnil : filter (λ kv : Z * Row, kv.1 = i)
                   (map_to_list (delete i db)) = []).
  { apply filter_all_False, Forall_forall. intros [k x] Hk.
    apply elem_of_map_to_list in Hk. simpl. intros ->. congruence. }
  pose proof (map_to_list_insert (delete i db) i r Hd) as Hp.
  assert (Hf := filter_Permutation (λ kv : Z * Row, kv.1 = i) _ _ Hp).
  rewrite filter_cons_True in Hf by done. rewrite Hnil in Hf.
  by apply Permutation_singleton_r in Hf.
Qed.

Lemma apply_upserts_snoc i us u db :
  apply_upserts i (us ++ [u]) db = apply_upsert i (apply_upserts i us db) u.
Proof. unfold apply_upserts. by rewrite foldl_app. Qed.
End store_facts.

(** ** The table operations *)

Section store_theorems.
Implicit Types (db : Store) (r : Row).

Lemma length_filter_map_to_list (P : Z * Row → Prop)
    `{!∀ x, Decision (P x)} db :
  length (filter P (map_to_list db)) = size (filter P db).
Proof.
  induction db as [|i r m Hi IH] using map_ind.
  - by rewrite map_to_list_empty, map_filter_empty, map_size_empty.
  - rewrite (Permutation_length
               (filter_Permutation P _ _ (map_to_list_insert m i r Hi))).
    rewrite filter_cons, map_filter_insert.
    destruct (decide (P (i, r))); simpl.
    + rewrite map_size_insert_None, IH; [done|].
      apply map_lookup_filter_None; by left.
    + by rewrite delete_id.
Qed.

Lemma active_rows_no_blocked db : blocked_rows (active_rows db) = ∅.
Proof.
  apply map_eq. intros i.
  rewrite lookup_blocked_rows, lookup_active_rows, lookup_empty.
  destruct (db !! i) as [r|]; simpl; [|done].
  destruct (is_blocked r) eqn:B; simpl; [done|]. by rewrite B.
Qed.

Lemma active_rows_idemp db : active_rows (active_rows db) = active_rows db.
Proof.
  apply map_eq. intros i. rewrite !lookup_active_rows.
  destruct (db !! i) as [r|]; simpl; [|done].
  destruct (is_blocked r) eqn:B; simpl; [done|]. by rewrite B.
Qed.

(** C4.  After any sequence of upserts on one identifier that ends with
    the upsert [u], the table holds exactly one row for that identifier;
    it carries the username, first name and time of [u], and its
    [is_blocked] is false whatever the table held before.  Rows of other
    identifiers are as they were. *)
Theorem upserts_keep_latest_unblocked (user_id : Z) (us : list Upsert)
    (u : Upsert) (db : Store) :
  let db' := apply_upserts user_id (us ++ [u]) db in
  let latest := mkRow (up_username u) (up_first_name u) (up_now u) false in
  rows_with_id user_id db' = [(user_id, latest)]
  ∧ db' !! user_id = Some latest
  ∧ is_blocked <$> db' !! user_id = Some false
  ∧ ∀ j, j ≠ user_id → db' !! j = db !! j.
Proof.
  simpl. rewrite apply_upserts_snoc.
  set (latest := mkRow (up_username u) (up_first_name u) (up_now u) false).
  assert (Hl : apply_upsert user_id (apply_upserts user_id us db) u
                 !! user_id = Some latest).
  { unfold apply_upsert, add_or_update_user. apply lookup_insert_eq. }
  split_and!.
  - by apply rows_with_id_Some.
  - done.
  - by rewrite Hl.
  - intros j Hj. unfold apply_upsert, add_or_update_user.
    rewrite lookup_insert_ne by done. clear Hl.
    induction us as [|v us IH] using rev_ind; [done|].
    rewrite apply_upserts_snoc. unfold apply_upsert, add_or_update_user.
    by rewrite lookup_insert_ne.
Qed.

(** C5.  [clean_blocked] removes exactly the rows whose [is_blocked] is
    true at the call and leaves every other row as it is; the number it
    returns is the number of blocked rows, which is the number of rows
    the table lost.  Afterwards no row is blocked and the statistics are
    (active, active, 0). *)
Theorem clean_blocked_removes_exactly_blocked (db : Store) :
  let deleted := (clean_blocked db).1 in
  let db' := (clean_blocked db).2 in
  (∀ i, db' !! i = match db !! i with
                   | Some r => if is_blocked r then None else Some r
                   | None => None
                   end)
  ∧ deleted = Z.of_nat (length (filter (λ kv, is_blocked kv.2 = true)
                                   (map_to_list db)))
  ∧ deleted = Z.of_nat (size db) - Z.of_nat (size db')
  ∧ blocked_rows db' = ∅
  ∧ get_stats db' = (Z.of_nat (size (active_rows db)),
                     Z.of_nat (size (active_rows db)), 0).
Proof.
  simpl. split_and!.
  - intros i. rewrite lookup_active_rows. by destruct (db !! i).
  - by rewrite length_filter_map_to_list.
  - rewrite (size_split db). lia.
  - apply active_rows_no_blocked.
  - unfold get_stats. rewrite active_rows_idemp. do 2 f_equal. lia.
Qed.

(** C6.  The triple of [get_stats] satisfies total = active + blocked,
    with total the number of rows, active the number of rows whose
    [is_blocked] is false and blocked the number whose [is_blocked] is
    true. *)
Theorem get_stats_total_is_active_plus_blocked (db : Store) :
  let total := (get_stats db).1.1 in
  let active := (get_stats db).1.2 in
  let blocked := (get_stats db).2 in
  total = active + blocked
  ∧ total = Z.of_nat (length (map_to_list db))
  ∧ active = Z.of_nat (length (filter (λ kv, is_blocked kv.2 = false)
                                 (map_to_list db)))
  ∧ blocked = Z.of_nat (length (filter (λ kv, is_blocked kv.2 = true)
                                  (map_to_list db))).
Proof.
  simpl. rewrite !length_filter_map_to_list, length_map_to_list.
  fold (active_rows db) (blocked_rows db).
  rewrite (size_split db). split_and!; lia.
Qed.
End store_theorems.

Example clean_blocked_scenario :
  (clean_blocked five_rows).1 = 3
  ∧ get_stats (clean_blocked five_rows).2 = (2, 2, 0).
Proof. split; vm_compute; reflexivity. Qed.

(** ** The broadcast pass *)

Section pass_facts.
Variable bot : Transport.
Variables (msg : Message) (txt : string).

Local Abbreviation body := (λ (user_id : Z) '(success, failed),
  try_except
    (await bot (deliver msg txt user_id) ;; ret (success + 1, failed))
    [except_Forbidden
       (write_db (block_user user_id) ;; ret (success, failed + 1));
     except_TelegramError (λ _, ret (success, failed + 1))]).

Local Abbreviation block_all := (foldl (λ d u, block_user u d)).

Lemma fst_attempts k us : (attempts bot msg txt k us).*1 = us.
Proof.
  revert k. induction us as [|u us IH]; intros k; simpl; [done|].
  by rewrite IH.
Qed.

Lemma length_attempts k us : length (attempts bot msg txt k us) = length us.
Proof. by rewrite <-(fst_attempts k us) at 2; rewrite length_fmap. Qed.

Lemma with_outcome_cons o u r A :
  with_outcome o ((u, r) :: A)
  = if decide (r = o) then u :: with_outcome o A else with_outcome o A.
Proof.
  unfold with_outcome. rewrite filter_cons. simpl.
  by destruct (decide (r = o)).
Qed.

Lemma with_outcome_sublist o k us :
  sublist (with_outcome o (attempts bot msg txt k us)) us.
Proof.
  unfold with_outcome. rewrite <-(fst_attempts k us) at 2.
  apply fmap_sublist, sublist_filter.
Qed.

(** Every attempt has exactly one of the three outcomes. *)
Lemma count_outcomes A :
  count_outcome None A + count_outcome (Some Forbidden) A
    + count_outcome (Some TelegramError) A = Z.of_nat (length A).
Proof.
  unfold count_outcome. induction A as [|[u r] A IH]; [done|].
  rewrite !with_outcome_cons. destruct r as [[]|]; simpl in *; lia.
Qed.

(** The loop of lines 215-230 in closed form. *)
Lemma for_in_pass us : ∀ w s f,
  let A := attempts bot msg txt (length (calls w)) us in
  for_in us body (s, f) w
  = (Ret (s + count_outcome None A,
          f + count_outcome (Some Forbidden) A
            + count_outcome (Some TelegramError) A),
     mkWorld (block_all (db w) (with_outcome (Some Forbidden) A))
       (user_data w)
       (calls w ++ map (λ a, (deliver msg txt a.1, a.2)) A)
       (log w)).
Proof.
  induction us as [|u us IH]; intros w s f; simpl.
  - unfold ret, count_outcome. simpl. rewrite app_nil_r.
    destruct w. do 3 f_equal; lia.
  - unfold bind at 1. unfold try_except at 1. unfold bind at 1.
    unfold await at 1.
    destruct (bot (length (calls w)) (deliver msg txt u)) as [[]|] eqn:E;
      simpl; rewrite IH; simpl; rewrite length_app; simpl;
      rewrite Nat.add_1_r, <-app_assoc; simpl;
      unfold count_outcome; rewrite !with_outcome_cons; simpl;
      do 3 f_equal; lia.
Qed.
End pass_facts.

Section blocking_facts.
Implicit Types (db : Store) (r : Row) (l : list Z).

Local Abbreviation block_all := (foldl (λ d u, block_user u d)).

Lemma lookup_block_user u db i :
  block_user u db !! i
  = if decide (u = i) then set_blocked <$> db !! i else db !! i.
Proof.
  unfold block_user. rewrite lookup_alter.
  destruct (decide (u = i)) as [->|]; done.
Qed.

Lemma lookup_block_all l : ∀ db i,
  block_all db l !! i
  = if decide (i ∈ l) then set_blocked <$> db !! i else db !! i.
Proof.
  induction l as [|u l IH]; intros db i; cbn [foldl].
  - rewrite decide_False; [done|]. apply not_elem_of_nil.
  - rewrite IH, lookup_block_user.
    destruct (decide (i ∈ l)) as [Hl|Hl], (decide (u = i)) as [->|Hu].
    + rewrite decide_True by apply list_elem_of_here.
      by destruct (db !! i).
    + rewrite decide_True by (by apply list_elem_of_further). done.
    + rewrite decide_True by apply list_elem_of_here. done.
    + rewrite decide_False; [done|].
      intros [?|?]%elem_of_cons; congruence.
Qed.

Lemma blocked_rows_block_user u db r :
  db !! u = Some r → is_blocked r = false →
  blocked_rows db !! u = None
  ∧ blocked_rows (block_user u db) = <[u := set_blocked r]> (blocked_rows db).
Proof.
  intros Hu Hr. split.
  - by rewrite lookup_blocked_rows, Hu; simpl; rewrite Hr.
  - apply map_eq. intros i.
    rewrite lookup_blocked_rows, lookup_block_user, lookup_insert.
    destruct (decide (u = i)) as [<-|Hi].
    + by rewrite Hu.
    + by rewrite lookup_blocked_rows.
Qed.

(** Blocking distinct active users adds one blocked row for each. *)
Lemma size_blocked_block_all l : ∀ db,
  NoDup l →
  (∀ i, i ∈ l → is_blocked <$> db !! i = Some false) →
  size (blocked_rows (block_all db l))
  = (size (blocked_rows db) + length l)%nat.
Proof.
  induction l as [|u l IH]; intros db Hnd Hact; simpl; [lia|].
  apply NoDup_cons in Hnd as [Hu Hnd].
  pose proof (Hact u (list_elem_of_here _ _)) as Hrow.
  destruct (db !! u) as [r|] eqn:Er; simpl in Hrow; [|done].
  destruct (blocked_rows_block_user u db r Er) as [Hnone Heq];
    [congruence|].
  rewrite IH; [|done|].
  - rewrite Heq, map_size_insert_None by done. lia.
  - intros i Hi. rewrite lookup_block_user.
    rewrite decide_False by (intros ->; done).
    apply Hact. by apply list_elem_of_further.
Qed.
End blocking_facts.

Section broadcast_facts.
Variable ADMIN_ID : Z.
Variable bot : Transport.

Local Abbreviation block_all := (foldl (λ d u, block_user u d)).

(** A channel post has no sender: line 200 raises. *)
Lemma broadcast_no_user msg w :
  broadcast ADMIN_ID bot None msg w = (Raise AttributeError, w).
Proof. done. Qed.

(** The generic handler leaves at once for another sender, or when the
    sender is not awaiting broadcast content. *)
Lemma broadcast_ignored user msg w :
  tg_id user ≠ ADMIN_ID ∨ awaiting w (tg_id user) = false →
  broadcast ADMIN_ID bot (Some user) msg w = (Ret (), w).
Proof.
  intros H. unfold broadcast. unfold bind at 1. simpl.
  destruct (bool_decide (tg_id user = ADMIN_ID)) eqn:E; simpl; [|done].
  destruct H as [H|H]; [by apply bool_decide_eq_true in E|].
  unfold bind at 1. unfold user_data_get. fold (awaiting w (tg_id user)).
  by rewrite H.
Qed.

(** When the administrator is awaiting broadcast content the flag is
    reset first and the pass runs from that state. *)
Lemma broadcast_captures user msg w :
  tg_id user = ADMIN_ID → awaiting w ADMIN_ID = true →
  broadcast ADMIN_ID bot (Some user) (Some msg) w
  = broadcast_pass bot msg (captured ADMIN_ID w).
Proof.
  intros Hu Hw. unfold broadcast. unfold bind at 1. simpl.
  rewrite Hu, bool_decide_eq_true_2 by done. simpl.
  unfold bind at 1. unfold user_data_get. fold (awaiting w ADMIN_ID).
  by rewrite Hw.
Qed.

(** Without [update.message] the flag is reset and line 209 raises. *)
Lemma broadcast_no_message user w :
  tg_id user = ADMIN_ID → awaiting w ADMIN_ID = true →
  broadcast ADMIN_ID bot (Some user) None w
  = (Raise AttributeError, captured ADMIN_ID w).
Proof.
  intros Hu Hw. unfold broadcast. unfold bind at 1. simpl.
  rewrite Hu, bool_decide_eq_true_2 by done. simpl.
  unfold bind at 1. unfold user_data_get. fold (awaiting w ADMIN_ID).
  by rewrite Hw.
Qed.

(** The pass in closed form. *)
Lemma broadcast_pass_run msg w :
  let users := get_active_users (db w) in
  let A := attempts bot msg (captured_text msg) (length (calls w)) users in
  let o := bot (length (calls w) + length users)%nat (summary msg A) in
  broadcast_pass bot msg w
  = (match o with None => Ret () | Some e => Raise e end,
     mkWorld (block_all (db w) (with_outcome (Some Forbidden) A))
       (user_data w)
       (calls w ++ map (λ a, (deliver msg (captured_text msg) a.1, a.2)) A
               ++ [(summary msg A, o)])
       (log w)).
Proof.
  simpl. unfold broadcast_pass.
  unfold bind at 1. unfold read_db at 1. simpl.
  unfold bind at 1. fold (captured_text msg).
  rewrite (for_in_pass bot msg (captured_text msg)). simpl.
  unfold await. simpl. rewrite length_app, length_map, length_attempts.
  rewrite !Z.add_0_l. fold (summary msg
    (attempts bot msg (captured_text msg) (length (calls w))
       (get_active_users (db w)))).
  by rewrite <-app_assoc.
Qed.

(** The whole handler in closed form when the administrator is awaiting
    broadcast content and the update carries a message. *)
Lemma broadcast_run user msg w :
  tg_id user = ADMIN_ID → awaiting w ADMIN_ID = true →
  let users := get_active_users (db w) in
  let A := attempts bot msg (captured_text msg) (length (calls w)) users in
  let o := bot (length (calls w) + length users)%nat (summary msg A) in
  broadcast ADMIN_ID bot (Some user) (Some msg) w
  = (match o with None => Ret () | Some e => Raise e end,
     mkWorld (block_all (db w) (with_outcome (Some Forbidden) A))
       (<[ADMIN_ID := <["broadcast" := false]>
                        (default ∅ (user_data w !! ADMIN_ID))]> (user_data w))
       (calls w ++ map (λ a, (deliver msg (captured_text msg) a.1, a.2)) A
               ++ [(summary msg A, o)])
       (log w)).
Proof.
  intros Hu Hw. cbv zeta.
  by rewrite (broadcast_captures _ _ _ Hu Hw), broadcast_pass_run.
Qed.

(** The ways the generic handler can go. *)
Lemma broadcast_cases ou om w :
  (∃ r, broadcast ADMIN_ID bot ou om w = (r, w)
        ∧ (r = Ret () ∨ r = Raise AttributeError ∧ ou = None))
  ∨ (∃ user, ou = Some user ∧ om = None ∧ tg_id user = ADMIN_ID
             ∧ awaiting w ADMIN_ID = true)
  ∨ (∃ user msg, ou = Some user ∧ om = Some msg ∧ tg_id user = ADMIN_ID
                 ∧ awaiting w ADMIN_ID = true).
Proof.
  destruct ou as [user|].
  - destruct (decide (tg_id user = ADMIN_ID)) as [Hu|Hu];
      [destruct (awaiting w ADMIN_ID) eqn:Hw|].
    + right. destruct om as [msg|]; [right|left]; eauto 10.
    + left. eexists. split; [|by left].
      apply broadcast_ignored. right. by rewrite Hu.
    + left. eexists. split; [|by left]. apply broadcast_ignored. by left.
  - left. eexists. split; [apply broadcast_no_user|by right].
Qed.
End broadcast_facts.

Section broadcast_theorems.
Variable ADMIN_ID : Z.
Variable bot : Transport.

Lemma List_last_cons {A} (l : list A) : ∀ x d,
  List.last (x :: l) d = List.last l x.
Proof.
  induction l as [|y l IH]; intros x d; [done|].
  change (List.last (x :: y :: l) d) with (List.last (y :: l) d).
  by rewrite !IH.
Qed.

Lemma last_cons_default {A} (l : list A) : ∀ x,
  last (x :: l) = Some (List.last l x).
Proof.
  induction l as [|y l IH]; intros x; [done|].
  by rewrite last_cons_cons, IH, List_last_cons.
Qed.

Lemma new_calls_app w d ud l lg :
  new_calls w (mkWorld d ud (calls w ++ l) lg) = l.
Proof. unfold new_calls. simpl. by rewrite drop_app_length. Qed.

Lemma deliver_richest msg txt u :
  delivery_of (deliver msg txt u)
  = Some (richest msg, u, media_file msg (richest msg), txt).
Proof.
  unfold deliver, richest, carries.
  destruct (photo msg) as [|p ps] eqn:Ep.
  - destruct (video msg) as [v|] eqn:Ev.
    + simpl. by rewrite Ev.
    + destruct (document msg) as [d|] eqn:Ed; simpl; [by rewrite Ed|done].
  - simpl. by rewrite Ep, last_cons_default.
Qed.

(** C1.  In a broadcast pass, the users whose delivery fails with
    [Forbidden] were active and are exactly the rows the pass changes:
    each gets [is_blocked] set and nothing else, every other row is as
    before, and the number of blocked rows grows by their number K.  The
    summary reports as succeeded the deliveries that returned and as
    failed the K forbidden ones plus those that raised another transport
    error, hence at least K. *)
Theorem broadcast_blocks_exactly_forbidden (user : User) (msg : Message)
    (w : World) :
  tg_id user = ADMIN_ID → awaiting w ADMIN_ID = true →
  let users := get_active_users (db w) in
  let A := attempts bot msg (captured_text msg) (length (calls w)) users in
  let forbidden := with_outcome (Some Forbidden) A in
  let K := length forbidden in
  let w' := (broadcast ADMIN_ID bot (Some user) (Some msg) w).2 in
  (∀ i, i ∈ forbidden →
        is_blocked <$> db w !! i = Some false
        ∧ db w' !! i = set_blocked <$> db w !! i)
  ∧ (∀ i, i ∉ forbidden → db w' !! i = db w !! i)
  ∧ size (blocked_rows (db w')) = (size (blocked_rows (db w)) + K)%nat
  ∧ ∃ o succeeded failed,
      last (calls w')
      = Some (reply_text (msg_chat msg)
                (broadcast_done_text succeeded failed), o)
      ∧ succeeded = count_outcome None A
      ∧ failed = Z.of_nat K + count_outcome (Some TelegramError) A
      ∧ Z.of_nat K ≤ failed.
Proof.
  intros Hu Hw. simpl. rewrite (broadcast_run _ _ _ _ _ Hu Hw). simpl.
  set (A := attempts bot msg (captured_text msg) (length (calls w))
              (get_active_users (db w))).
  assert (Hsub : sublist (with_outcome (Some Forbidden) A)
                   (get_active_users (db w)))
    by apply with_outcome_sublist.
  assert (Hact : ∀ i, i ∈ with_outcome (Some Forbidden) A →
                      is_blocked <$> db w !! i = Some false).
  { intros i Hi. apply elem_of_get_active_users.
    eapply elem_of_sublist; eauto. }
  split_and!.
  - intros i Hi. split; [by apply Hact|].
    by rewrite lookup_block_all, decide_True.
  - intros i Hi. by rewrite lookup_block_all, decide_False.
  - apply size_blocked_block_all; [|exact Hact].
    eapply sublist_NoDup; [|exact Hsub]. apply NoDup_get_active_users.
  - eexists _, _, _. rewrite app_assoc, last_snoc.
    split; [reflexivity|]. split; [done|]. split; [done|].
    unfold count_outcome. lia.
Qed.

Lemma captured_text_payload msg : captured_text msg = payload_text msg.
Proof.
  unfold captured_text, payload_text, str_or.
  destruct (text msg) as [[|a s]|], (caption msg) as [[|b t]|]; done.
Qed.

(** C2.  In a broadcast pass every active user, in the order fetched,
    gets exactly one delivery, and every delivery uses the richest media
    kind the captured message carries, in the order photo, video,
    document, plain text: the send operation of that kind, with the file
    of that kind (the last size of a photo) and, as caption or body, the
    text of the message when it has one that is not empty, else its
    caption, else the empty string.  The choice does not depend on the
    recipient.  The one other call of the pass, its last, is no
    delivery. *)
Theorem delivery_follows_media_precedence (user : User) (msg : Message)
    (w : World) :
  tg_id user = ADMIN_ID → awaiting w ADMIN_ID = true →
  let chosen := richest msg in
  let w' := (broadcast ADMIN_ID bot (Some user) (Some msg) w).2 in
  (∀ txt u, delivery_of (deliver msg txt u)
            = Some (chosen, u, media_file msg chosen, txt))
  ∧ map (λ c, delivery_of c.1) (new_calls w w')
    = map (λ u, Some (chosen, u, media_file msg chosen, payload_text msg))
        (get_active_users (db w)) ++ [None].
Proof.
  intros Hu Hw. cbv zeta. split; [intros; apply deliver_richest|].
  rewrite (broadcast_run _ _ _ _ _ Hu Hw). cbv zeta. cbn [snd].
  rewrite new_calls_app, map_app. f_equal.
  rewrite <-(fst_attempts bot msg (captured_text msg)
               (length (calls w)) (get_active_users (db w))) at 2.
  rewrite !map_map. apply map_ext. intros [u o]. simpl.
  by rewrite deliver_richest, captured_text_payload.
Qed.

(** C10.  The calls of a broadcast pass are one delivery for each user
    identifier the active-user fetch returned, in that order and each
    identifier once, followed by the summary; every attempt is counted
    either as succeeded or as failed, and the two counts add up to the
    number of fetched users. *)
Theorem broadcast_attempts_each_active_user_once (user : User)
    (msg : Message) (w : World) :
  tg_id user = ADMIN_ID → awaiting w ADMIN_ID = true →
  let users := get_active_users (db w) in
  let A := attempts bot msg (captured_text msg) (length (calls w)) users in
  let w' := (broadcast ADMIN_ID bot (Some user) (Some msg) w).2 in
  ∃ succeeded failed,
    (new_calls w w').*1
    = map (deliver msg (captured_text msg)) users
        ++ [reply_text (msg_chat msg) (broadcast_done_text succeeded failed)]
    ∧ NoDup users
    ∧ succeeded = count_outcome None A
    ∧ failed = count_outcome (Some Forbidden) A
               + count_outcome (Some TelegramError) A
    ∧ succeeded + failed = Z.of_nat (length users).
Proof.
  intros Hu Hw. simpl. rewrite (broadcast_run _ _ _ _ _ Hu Hw). simpl.
  rewrite new_calls_app. eexists _, _.
  split_and!; [|apply NoDup_get_active_users|done|done|].
  - rewrite fmap_app. simpl. f_equal.
    rewrite <-(fst_attempts bot msg (captured_text msg)
                 (length (calls w)) (get_active_users (db w))) at 2.
    rewrite <-!list_fmap_compose. done.
  - rewrite Z.add_assoc, count_outcomes, length_attempts. done.
Qed.
End broadcast_theorems.

(** ** The handlers, update by update *)

Section handler_facts.
Variable ADMIN_ID : Z.
Variable bot : Transport.
Variable now : Z.

Local Abbreviation block_all := (foldl (λ d u, block_user u d)).
Local Abbreviation handle := (process_update ADMIN_ID bot now).

Local Ltac case_call :=
  match goal with
  | |- context [bot ?k ?c] => destruct (bot k c) as [[]|] eqn:?; simpl
  end.

Lemma new_calls_refl w : new_calls w w = [].
Proof. unfold new_calls. by rewrite drop_all. Qed.

Lemma new_calls_app_nil w d ud lg :
  new_calls w (mkWorld d ud (calls w) lg) = [].
Proof. unfold new_calls. simpl. by rewrite drop_all. Qed.

Lemma failed_deliveries_attempts msg txt A :
  failed_deliveries (map (λ a, (deliver msg txt a.1, a.2)) A)
  = count_outcome (Some Forbidden) A + count_outcome (Some TelegramError) A.
Proof.
  unfold failed_deliveries, count_outcome.
  induction A as [|[u r] A IH]; [done|].
  rewrite !with_outcome_cons. cbn [map fst snd]. rewrite filter_cons.
  cbn [fst snd]. rewrite deliver_richest.
  destruct r as [[]|].
  - rewrite decide_True by (split; [by eexists|done]).
    rewrite decide_True, decide_False by done.
    cbn [length]. lia.
  - rewrite decide_True by (split; [by eexists|done]).
    rewrite decide_False, decide_True by done.
    cbn [length]. lia.
  - rewrite decide_False by (intros [_ ?]; done).
    rewrite !decide_False by done. lia.
Qed.

Lemma failed_deliveries_snoc_reply cs chat t o :
  failed_deliveries (cs ++ [(reply_text chat t, o)]) = failed_deliveries cs.
Proof.
  unfold failed_deliveries. rewrite filter_app, length_app.
  rewrite filter_cons_False; [simpl; lia|].
  simpl. intros [[x Hx] _]. done.
Qed.

(** The join-request handler in closed form. *)
Lemma handle_join_request_run user chat w :
  let approve := approve_chat_join_request (chat_id chat) (tg_id user) in
  let welcome := send_message (tg_id user)
                   (welcome_text (tg_first_name user) (title chat)) in
  let k := length (calls w) in
  let db1 := add_or_update_user now (tg_id user) (tg_username user)
               (tg_first_name user) (db w) in
  handle_join_request bot now user chat w
  = match bot k approve with
    | Some e =>
        (Ret (), mkWorld (db w) (user_data w)
                   (calls w ++ [(approve, Some e)])
                   (log w ++ [error_approving e]))
    | None =>
        (Ret (), mkWorld db1 (user_data w)
                   (calls w ++ [(approve, None); (welcome, bot (S k) welcome)])
                   (log w ++ match bot (S k) welcome with
                             | None => []
                             | Some Forbidden =>
                                 [info_blocked_or_never_started (tg_id user)]
                             | Some TelegramError =>
                                 [error_approving TelegramError]
                             end))
    end.
Proof.
  run_handler.
  destruct (bot (length (calls w)) _) as [e|] eqn:E1; simpl.
  - by destruct e.
  - rewrite length_app, Nat.add_1_r. simpl.
    destruct (bot (S (length (calls w))) _) as [[]|] eqn:E2; simpl;
      rewrite <-?app_assoc, ?app_nil_r; simpl; done.
Qed.

(** The start handler in closed form. *)
Lemma start_run user message w :
  let db1 := add_or_update_user now (tg_id user) (tg_username user)
               (tg_first_name user) (db w) in
  start ADMIN_ID bot now user message w
  = match message with
    | None =>
        (Raise AttributeError,
         mkWorld db1 (user_data w) (calls w) (log w))
    | Some m =>
        let c := reply_text (msg_chat m)
                   (if bool_decide (tg_id user = ADMIN_ID)
                    then admin_panel_text (get_stats db1).1.1
                           (get_stats db1).1.2 (get_stats db1).2
                    else start_text (tg_first_name user)) in
        (match bot (length (calls w)) c with
         | None => Ret ()
         | Some e => Raise e
         end,
         mkWorld db1 (user_data w)
           (calls w ++ [(c, bot (length (calls w)) c)]) (log w))
    end.
Proof.
  run_handler.
  destruct (bool_decide (tg_id user = ADMIN_ID)), message as [m|];
    simpl; try done; by case_call.
Qed.

Lemma broadcast_not_admin ou om w :
  tg_id <$> ou ≠ Some ADMIN_ID →
  (broadcast ADMIN_ID bot ou om w).2 = w.
Proof.
  intros H. destruct ou as [user|]; [|done].
  rewrite broadcast_ignored; [done|]. left. simpl in H. congruence.
Qed.

Lemma not_admin_outside_panel u :
  sender u ≠ Some ADMIN_ID → outside_panel ADMIN_ID u.
Proof. destruct u; simpl; try done; congruence. Qed.

(** Only a button press or a captured message of the administrator
    writes [context.user_data]. *)
Lemma user_data_preserved u w :
  outside_panel ADMIN_ID u → user_data (handle u w).2 = user_data w.
Proof.
  intros Hs. destruct u as [user m|user chat|user data|user m]; simpl in *.
  - rewrite start_run. cbv zeta. by destruct m.
  - rewrite handle_join_request_run. simpl. by case_call.
  - run_handler. case_call; try done.
    by rewrite bool_decide_eq_false_2.
  - by rewrite broadcast_not_admin.
Qed.

End handler_facts.

Section handler_theorems.
Variable ADMIN_ID : Z.
Variable bot : Transport.
Variable now : Z.

Local Abbreviation block_all := (foldl (λ d u, block_user u d)).
Local Abbreviation handle := (process_update ADMIN_ID bot now).

Local Ltac case_call :=
  match goal with
  | |- context [bot ?k ?c] => destruct (bot k c) as [[]|] eqn:?; simpl
  end.

Local Ltac new_calls_simpl :=
  simpl; rewrite <-?app_assoc; rewrite ?new_calls_app, ?new_calls_refl;
  simpl.

Lemma escaping_quiet cs : quiet cs → escaping cs = None.
Proof.
  unfold escaping. induction 1 as [|[c o] cs Hc _ IH]; [done|].
  simpl in *. destruct (unguarded c); [by rewrite Hc|done].
Qed.

Lemma escaping_app_quiet pre cs :
  quiet pre → escaping (pre ++ cs) = escaping cs.
Proof.
  unfold escaping. induction 1 as [|[c o] pre Hc _ IH]; [done|].
  simpl in *. destruct (unguarded c); [by rewrite Hc|done].
Qed.

Lemma quiet_deliveries msg txt A :
  quiet (map (λ a, (deliver msg txt a.1, a.2)) A).
Proof.
  apply Forall_forall. intros c Hc.
  apply list_elem_of_fmap in Hc as [[u o] [-> _]]. simpl.
  pose proof (deliver_richest msg txt u) as H.
  by destruct (deliver msg txt u) as [| |? []| | | | |].
Qed.

(** How a handler can end: it returns or fails on a missing attribute
    with no failed unguarded call behind it, or it raises the error of
    its last call, an unguarded one, the only such call that failed. *)
Lemma handler_ends u w :
  (quiet (new_calls w (handle u w).2)
   ∧ ((handle u w).1 = Ret () ∨ (handle u w).1 = Raise AttributeError))
  ∨ ∃ pre c e,
      new_calls w (handle u w).2 = pre ++ [(c, Some e)]
      ∧ quiet pre ∧ unguarded c = true
      ∧ (handle u w).1 = Raise (Telegram e).
Proof.
  assert (Hone : ∀ d ud lg c (o : option Exn), unguarded c = true →
    (quiet (new_calls w (mkWorld d ud (calls w ++ [(c, o)]) lg))
     ∧ (match o with None => Ret () | Some e => Raise (Telegram e) end
        = Ret ()
        ∨ match o with None => Ret () | Some e => Raise (Telegram e) end
          = Raise AttributeError))
    ∨ ∃ pre c' e,
        new_calls w (mkWorld d ud (calls w ++ [(c, o)]) lg)
        = pre ++ [(c', Some e)]
        ∧ quiet pre ∧ unguarded c' = true
        ∧ match o with None => Ret () | Some e => Raise (Telegram e) end
          = Raise (Telegram e)).
  { intros d ud lg c o Hc. rewrite new_calls_app. destruct o as [e|].
    - right. exists [], c, e. by split_and!; [|constructor| |].
    - left. split; [|by left]. by repeat constructor. }
  assert (Htwo : ∀ d ud lg c1 c2 (o : option Exn), unguarded c2 = true →
    (quiet (new_calls w
              (mkWorld d ud ((calls w ++ [(c1, None)]) ++ [(c2, o)]) lg))
     ∧ (match o with None => Ret () | Some e => Raise (Telegram e) end
        = Ret ()
        ∨ match o with None => Ret () | Some e => Raise (Telegram e) end
          = Raise AttributeError))
    ∨ ∃ pre c' e,
        new_calls w
          (mkWorld d ud ((calls w ++ [(c1, None)]) ++ [(c2, o)]) lg)
        = pre ++ [(c', Some e)]
        ∧ quiet pre ∧ unguarded c' = true
        ∧ match o with None => Ret () | Some e => Raise (Telegram e) end
          = Raise (Telegram e)).
  { intros d ud lg c1 c2 o Hc. rewrite <-app_assoc, new_calls_app.
    destruct o as [e|].
    - right. exists [(c1, None)], c2, e.
      by split_and!; [|repeat constructor| |].
    - left. split; [|by left]. by repeat constructor. }
  destruct u as [user m|user chat|user data|ou om]; simpl.
  - rewrite start_run. cbv zeta. destruct m as [m|]; simpl.
    + by apply Hone.
    + left. rewrite new_calls_app_nil. split; [constructor|by right].
  - left. rewrite handle_join_request_run. cbv zeta.
    case_call; new_calls_simpl; (split; [|by left]);
      by repeat constructor.
  - run_handler.
    destruct (bot (length (calls w)) (answer None)) as [e|] eqn:Ea; simpl.
    { right. exists [], (answer None), e. rewrite new_calls_app.
      by split_and!; [|constructor| |]. }
    destruct (bool_decide (tg_id user = ADMIN_ID)); simpl;
      [|by apply Htwo].
    destruct (bool_decide (data = "broadcast")); simpl.
    { destruct (bot _ (edit_message_text send_broadcast_now_text))
        as [e|] eqn:Ee; simpl.
      - right.
        exists [(answer None, None)],
          (edit_message_text send_broadcast_now_text), e.
        rewrite <-app_assoc, new_calls_app.
        by split_and!; [|repeat constructor| |].
      - left. rewrite <-app_assoc, new_calls_app.
        split; [|by left]. by repeat constructor. }
    destruct (bool_decide (data = "clean_db")); simpl; [by apply Htwo|].
    left. rewrite new_calls_app. split; [|by left]. by repeat constructor.
  - destruct (broadcast_cases ADMIN_ID bot ou om w)
      as [(r & Hb & Hr)|[(user & -> & -> & Hu & Hw)
                        |(user & msg & -> & -> & Hu & Hw)]].
    + left. rewrite Hb. simpl. rewrite new_calls_refl.
      split; [constructor|]. destruct Hr as [->|[-> _]]; auto.
    + left. rewrite (broadcast_no_message _ _ _ _ Hu Hw). simpl.
      unfold captured, user_data_set. simpl. rewrite new_calls_app_nil.
      split; [constructor|by right].
    + rewrite (broadcast_run _ _ _ _ _ Hu Hw). cbv zeta. cbn [fst snd].
      rewrite new_calls_app.
      destruct (bot _ (summary msg _)) as [e|] eqn:Es.
      * right. eexists _, _, e. split; [reflexivity|].
        split_and!; [apply quiet_deliveries|done|done].
      * left. split; [|by left]. apply Forall_app. split.
        -- apply quiet_deliveries.
        -- by repeat constructor.
Qed.

Local Ltac kinds :=
  repeat (apply Forall_cons_2;
          [simpl; first [by left; eexists | by right; eexists]|]);
  apply Forall_nil_2.

(** The kinds of call each handler makes. *)
Lemma handler_call_kinds u w :
  Forall (λ c,
    match u with
    | StartCommand _ _ => ∃ chat t, c.1 = reply_text chat t
    | ChatJoinRequest _ _ => unguarded c.1 = false
    | CallbackQuery _ _ =>
        (∃ a, c.1 = answer a) ∨ ∃ t, c.1 = edit_message_text t
    | AnyMessage _ _ =>
        is_Some (delivery_of c.1) ∨ ∃ chat t, c.1 = reply_text chat t
    end) (new_calls w (handle u w).2).
Proof.
  destruct u as [user m|user chat|user data|ou om]; simpl.
  - rewrite start_run. cbv zeta. destruct m as [m|]; simpl.
    + rewrite new_calls_app. apply Forall_singleton. simpl. eauto.
    + rewrite new_calls_app_nil. constructor.
  - rewrite handle_join_request_run. cbv zeta.
    case_call; new_calls_simpl; by repeat constructor.
  - run_handler. case_call; new_calls_simpl; try kinds.
    destruct (bool_decide (tg_id user = ADMIN_ID)); simpl;
      [|new_calls_simpl; kinds].
    destruct (bool_decide (data = "broadcast")); simpl;
      [case_call; new_calls_simpl; kinds|].
    destruct (bool_decide (data = "clean_db")); simpl;
      new_calls_simpl; kinds.
  - destruct (broadcast_cases ADMIN_ID bot ou om w)
      as [(r & Hb & Hr)|[(user & -> & -> & Hu & Hw)
                        |(user & msg & -> & -> & Hu & Hw)]].
    + rewrite Hb. simpl. rewrite new_calls_refl. constructor.
    + rewrite (broadcast_no_message _ _ _ _ Hu Hw). simpl.
      unfold captured, user_data_set. simpl. rewrite new_calls_app_nil.
      constructor.
    + rewrite (broadcast_run _ _ _ _ _ Hu Hw). cbv zeta. cbn [fst snd].
      rewrite new_calls_app. apply Forall_app. split.
      * apply Forall_forall. intros c Hc.
        apply list_elem_of_fmap in Hc as [[i o] [-> _]]. simpl. left.
        rewrite deliver_richest. by eexists.
      * apply Forall_singleton. right. unfold summary. simpl. eauto.
Qed.

(** C3, as the code has it.  A handler ends by raising an error of the
    transport exactly when one of its unguarded calls raised it, and that
    call is then its last.  The calls of the start handler are replies,
    those of the button handler acknowledgements and edits of the panel
    message, and the generic handler ends with the reply that carries the
    summary: all unguarded.  The calls of the join-request handler and
    the deliveries of a pass are guarded, so their failure never leaves
    the handler: the join-request handler always returns and writes one
    log line for each of its calls that failed, and the generic handler
    counts every failed delivery in the failed count of its summary. *)
Theorem only_reply_failures_escape (u : Update) (w : World) :
  (∀ e : Exn, (handle u w).1 = Raise (Telegram e)
              ↔ escaping (new_calls w (handle u w).2) = Some e)
  ∧ (∀ c e, (c, Some e) ∈ new_calls w (handle u w).2 →
            unguarded c = true →
            last (new_calls w (handle u w).2) = Some (c, Some e))
  ∧ Forall (λ c,
      match u with
      | StartCommand _ _ => ∃ chat t, c.1 = reply_text chat t
      | ChatJoinRequest _ _ => unguarded c.1 = false
      | CallbackQuery _ _ =>
          (∃ a, c.1 = answer a) ∨ ∃ t, c.1 = edit_message_text t
      | AnyMessage _ _ =>
          is_Some (delivery_of c.1) ∨ ∃ chat t, c.1 = reply_text chat t
      end) (new_calls w (handle u w).2)
  ∧ match u with
    | StartCommand _ (Some m) =>
        ∃ t, (new_calls w (handle u w).2).*1 = [reply_text (msg_chat m) t]
    | CallbackQuery _ _ =>
        head (new_calls w (handle u w).2).*1 = Some (answer None)
    | _ => True
    end
  ∧ (∀ user chat,
       let j := handle_join_request bot now user chat w in
       j.1 = Ret ()
       ∧ log j.2 = log w ++ omap (join_log_line (tg_id user))
                              (new_calls w j.2))
  ∧ (∀ user msg,
       tg_id user = ADMIN_ID → awaiting w ADMIN_ID = true →
       let b := broadcast ADMIN_ID bot (Some user) (Some msg) w in
       ∃ succeeded failed o,
         last (new_calls w b.2)
         = Some (reply_text (msg_chat msg)
                   (broadcast_done_text succeeded failed), o)
         ∧ failed = failed_deliveries (new_calls w b.2)).
Proof.
  split_and!.
  - intros e.
    destruct (handler_ends u w)
      as [[Hq Hr]|(pre & c & e' & -> & Hq & Hc & ->)].
    + rewrite (escaping_quiet _ Hq). split; [|done].
      destruct Hr as [->| ->]; done.
    + rewrite (escaping_app_quiet _ _ Hq). unfold escaping. simpl.
      rewrite Hc. simpl. split; congruence.
  - intros c e Hin Hc.
    destruct (handler_ends u w)
      as [[Hq _]|(pre & c' & e' & Heq & Hq & _ & _)].
    + by pose proof (proj1 (Forall_forall _ _) Hq _ Hin Hc).
    + rewrite Heq in *. rewrite last_snoc. apply elem_of_app in Hin as [Hin|Hin].
      * by pose proof (proj1 (Forall_forall _ _) Hq _ Hin Hc).
      * apply list_elem_of_singleton in Hin. by rewrite Hin.
  - apply handler_call_kinds.
  - destruct u as [user [m|]|user chat|user data|ou om]; try done; simpl.
    + rewrite start_run. cbv zeta. simpl. rewrite new_calls_app.
      simpl. eauto.
    + run_handler. case_call; new_calls_simpl; try done.
      destruct (bool_decide (tg_id user = ADMIN_ID)); simpl;
        [|by new_calls_simpl].
      destruct (bool_decide (data = "broadcast")); simpl;
        [case_call; by new_calls_simpl|].
      destruct (bool_decide (data = "clean_db")); simpl;
        by new_calls_simpl.
  - intros user chat. simpl. rewrite handle_join_request_run. simpl.
    case_call; new_calls_simpl; try done.
    case_call; done.
  - intros user msg Hu Hw. simpl.
    rewrite (broadcast_run _ _ _ _ _ Hu Hw). simpl.
    rewrite new_calls_app, last_snoc. eexists _, _, _.
    split; [reflexivity|].
    unfold summary. by rewrite failed_deliveries_snoc_reply,
      failed_deliveries_attempts.
Qed.

Lemma start_upserts user message w :
  db (start ADMIN_ID bot now user message w).2
  = add_or_update_user now (tg_id user) (tg_username user)
      (tg_first_name user) (db w).
Proof. rewrite start_run. cbv zeta. by destruct message. Qed.

(** A row is blocked after an update but was not before only when the
    update is a captured broadcast whose delivery to that user raised
    [Forbidden]. *)
Lemma blocked_only_by_forbidden_delivery u w i :
  is_blocked <$> db (handle u w).2 !! i = Some true →
  is_blocked <$> db w !! i ≠ Some true →
  ∃ user msg, u = AnyMessage (Some user) (Some msg)
    ∧ (deliver msg (captured_text msg) i, Some Forbidden)
      ∈ new_calls w (handle u w).2.
Proof.
  destruct u as [user m|user chat|user data|ou om]; simpl.
  - rewrite start_upserts. unfold add_or_update_user.
    rewrite lookup_insert. case_decide; [done|congruence].
  - rewrite handle_join_request_run. simpl.
    case_call; try congruence.
    unfold add_or_update_user. rewrite lookup_insert.
    case_decide; [done|congruence].
  - run_handler. case_call; try congruence.
    destruct (bool_decide (tg_id user = ADMIN_ID)); simpl; [|congruence].
    destruct (bool_decide (data = "broadcast")); simpl.
    { case_call; congruence. }
    destruct (bool_decide (data = "clean_db")); simpl; [|congruence].
    rewrite lookup_active_rows. intros Hb. exfalso.
    destruct (db w !! i) as [r|]; simpl in Hb; [|done].
    destruct (is_blocked r) eqn:B; simpl in Hb; congruence.
  - destruct (broadcast_cases ADMIN_ID bot ou om w)
      as [(r & Hb & Hr)|[(user & -> & -> & Hu & Hw)
                        |(user & msg & -> & -> & Hu & Hw)]].
    { rewrite Hb. simpl. congruence. }
    { rewrite (broadcast_no_message _ _ _ _ Hu Hw). simpl. congruence. }
    rewrite (broadcast_run _ _ _ _ _ Hu Hw). simpl.
    rewrite lookup_block_all. case_decide as Hi; [|congruence].
    intros _ _. exists user, msg. split; [done|].
    rewrite new_calls_app. apply elem_of_app. left.
    unfold with_outcome in Hi.
    apply list_elem_of_fmap in Hi as [[j o] [-> Hj]].
    apply list_elem_of_filter in Hj as [Ho Hj]. simpl in *. subst o.
    apply list_elem_of_fmap. by exists (j, Some Forbidden).
Qed.

(** C7, as the code has it.  A start command always upserts its sender
    with [is_blocked] false.  A join request upserts the requester with
    [is_blocked] false when its approval call returns, and leaves the
    table as it is when the approval call raises.  A row becomes blocked
    only through a broadcast delivery to that user that raised
    [Forbidden]. *)
Theorem interaction_resets_blocked (user : User)
    (message : option Message) (chat : Chat) (w : World) :
  let fresh := mkRow (tg_username user) (tg_first_name user) now false in
  db (handle (StartCommand user message) w).2 !! tg_id user = Some fresh
  ∧ match bot (length (calls w))
            (approve_chat_join_request (chat_id chat) (tg_id user)) with
    | None =>
        db (handle (ChatJoinRequest user chat) w).2 !! tg_id user
        = Some fresh
    | Some _ => db (handle (ChatJoinRequest user chat) w).2 = db w
    end
  ∧ ∀ u i,
      is_blocked <$> db (handle u w).2 !! i = Some true →
      is_blocked <$> db w !! i ≠ Some true →
      ∃ admin msg, u = AnyMessage (Some admin) (Some msg)
        ∧ (deliver msg (captured_text msg) i, Some Forbidden)
          ∈ new_calls w (handle u w).2.
Proof.
  simpl. split_and!.
  - rewrite start_upserts. apply lookup_insert_eq.
  - rewrite handle_join_request_run. simpl.
    case_call; try done. apply lookup_insert_eq.
  - intros u i. apply blocked_only_by_forbidden_delivery.
Qed.

(** C8, as the code has it.  An update whose sender is not the
    administrator leaves every [context.user_data] as it is, makes no
    delivery of a broadcast pass, deletes no row and blocks no row,
    whatever state earlier button presses left.  Such a button press or
    generic message leaves the whole table as it is; such a start
    command or join request changes at most the row of its sender. *)
Theorem non_admin_cannot_drive_panel (u : Update) (w : World) :
  sender u ≠ Some ADMIN_ID →
  let w' := (handle u w).2 in
  user_data w' = user_data w
  ∧ Forall (λ c, delivery_of c.1 = None) (new_calls w w')
  ∧ (∀ i, is_Some (db w !! i) → is_Some (db w' !! i))
  ∧ (∀ i, is_blocked <$> db w' !! i = Some true → db w' !! i = db w !! i)
  ∧ match u with
    | CallbackQuery _ _ | AnyMessage _ _ => db w' = db w
    | StartCommand user _ | ChatJoinRequest user _ =>
        ∀ i, i ≠ tg_id user → db w' !! i = db w !! i
    end.
Proof.
  intros Hs. simpl.
  split; [by apply user_data_preserved, not_admin_outside_panel|].
  destruct u as [user m|user chat|user data|ou om]; simpl in *.
  - split_and!.
    + rewrite start_run. cbv zeta. destruct m as [m|]; simpl.
      * rewrite new_calls_app. by apply Forall_singleton.
      * rewrite new_calls_app_nil. constructor.
    + intros i Hi. rewrite start_upserts. unfold add_or_update_user.
      rewrite lookup_insert. by case_decide.
    + intros i. rewrite start_upserts. unfold add_or_update_user.
      rewrite lookup_insert. by case_decide.
    + intros i Hi. rewrite start_upserts. unfold add_or_update_user.
      by rewrite lookup_insert_ne.
  - rewrite handle_join_request_run. simpl.
    unfold add_or_update_user.
    case_call; new_calls_simpl;
      (split_and!;
       [by repeat constructor
       |intros i Hi; rewrite ?lookup_insert; try case_decide; done
       |intros i; rewrite ?lookup_insert; try case_decide; done
       |intros i Hi; rewrite ?lookup_insert_ne; done]).
  - run_handler. case_call; new_calls_simpl;
      try (split_and!; [by repeat constructor|done..]).
    rewrite bool_decide_eq_false_2 by congruence. simpl. new_calls_simpl.
    split_and!; [by repeat constructor|done..].
  - rewrite broadcast_not_admin by done.
    rewrite new_calls_refl. split_and!; done.
Qed.

Lemma awaiting_user_data w w' u :
  user_data w' = user_data w → awaiting w' u = awaiting w u.
Proof. unfold awaiting. by intros ->. Qed.

Lemma press_broadcast_returns admin w :
  tg_id admin = ADMIN_ID →
  (admin_buttons ADMIN_ID bot admin "broadcast" w).1 = Ret () →
  awaiting (admin_buttons ADMIN_ID bot admin "broadcast" w).2 ADMIN_ID = true.
Proof.
  intros Hu. run_handler. case_call; try done.
  rewrite bool_decide_eq_true_2 by done. simpl.
  case_call; try done. intros _. unfold awaiting. simpl.
  rewrite Hu, lookup_insert_eq. simpl. by rewrite lookup_insert_eq.
Qed.

End handler_theorems.

(** ** Concrete runs *)

(** The broadcast scenario of the specification: Bob has blocked the bot,
    so Alice's delivery succeeds, Bob is marked blocked and the summary
    reports one sent and one failed. *)
Example broadcast_scenario :
  let w := run 9 (blocked_by 2) 0
             [StartCommand alice (Some (slash_start 1));
              StartCommand bob (Some (slash_start 2));
              CallbackQuery the_admin "broadcast";
              AnyMessage (Some the_admin) (Some hello)] empty_world in
  last (calls w) = Some (reply_text 9 (broadcast_done_text 1 1), None)
  ∧ is_blocked <$> db w !! 1 = Some false
  ∧ is_blocked <$> db w !! 2 = Some true
  ∧ get_stats (db w) = (2, 1, 1).
Proof. vm_compute. done. Qed.

Lemma broadcast_blocks_exactly_forbidden_witness :
  tg_id the_admin = 9
  ∧ awaiting ready_to_broadcast 9 = true
  ∧ size (blocked_rows
            (db (broadcast 9 (blocked_by 2) (Some the_admin) (Some hello)
                   ready_to_broadcast).2))
    = (size (blocked_rows (db ready_to_broadcast)) + 1)%nat.
Proof.
  split; [reflexivity|]. split; [vm_compute; reflexivity|].
  exact (proj1 (proj2 (proj2
    (broadcast_blocks_exactly_forbidden 9 (blocked_by 2) the_admin hello
       ready_to_broadcast eq_refl ltac:(vm_compute; reflexivity))))).
Defined.

Lemma broadcast_attempts_each_active_user_once_witness :
  tg_id the_admin = 9
  ∧ awaiting ready_to_broadcast 9 = true
  ∧ ∃ succeeded failed,
      (new_calls ready_to_broadcast
         (broadcast 9 (blocked_by 2) (Some the_admin) (Some hello) ready_to_broadcast).2).*1
      = [send_message 1 (plain_text "Hello");
         send_message 2 (plain_text "Hello");
         reply_text 9 (broadcast_done_text succeeded failed)]
      ∧ succeeded + failed = 2.
Proof.
  split; [reflexivity|]. split; [vm_compute; reflexivity|].
  destruct (broadcast_attempts_each_active_user_once 9 (blocked_by 2)
              the_admin hello ready_to_broadcast eq_refl
              ltac:(vm_compute; reflexivity))
    as (s & f & Hc & _ & _ & _ & Hsum).
  exists s, f. split; [exact Hc|exact Hsum].
Defined.

(** A start command on a transport that is down: the reply raises and the
    error leaves the handler. *)
Lemma start_reply_failure_escapes :
  (process_update 9 unreachable 0 (StartCommand alice (Some (slash_start 1)))
     empty_world).1 = Raise TelegramError
  ∧ (process_update 9 unreachable 0 (CallbackQuery the_admin "clean_db")
       empty_world).1 = Raise TelegramError
  ∧ (process_update 9 edit_fails 0 (CallbackQuery the_admin "broadcast")
       empty_world).1 = Raise TelegramError.
Proof. vm_compute. done. Qed.

(** A join request of the blocked Alice whose approval raises: her row is
    not rewritten and stays blocked. *)
Lemma failed_approval_skips_upsert :
  db (process_update 9 approve_fails 5 (ChatJoinRequest alice channel)
        alice_blocked).2 !! 1
  = Some (mkRow (Some "alice") "Alice" 0 true).
Proof. vm_compute. reflexivity. Qed.

Lemma interaction_resets_blocked_witness :
  is_blocked <$> db (process_update 9 (blocked_by 2) 0
                       (AnyMessage (Some the_admin) (Some hello))
                       ready_to_broadcast).2 !! 2 = Some true
  ∧ is_blocked <$> db ready_to_broadcast !! 2 = Some false
  ∧ ∃ admin msg,
      AnyMessage (Some the_admin) (Some hello)
      = AnyMessage (Some admin) (Some msg)
      ∧ (deliver msg (captured_text msg) 2, Some Forbidden)
        ∈ new_calls ready_to_broadcast
            (process_update 9 (blocked_by 2) 0 (AnyMessage (Some the_admin) (Some hello))
               ready_to_broadcast).2.
Proof.
  split; [vm_compute; reflexivity|]. split; [vm_compute; reflexivity|].
  apply (proj2 (proj2 (interaction_resets_blocked 9 (blocked_by 2) 0
                         the_admin (Some hello) channel
                         ready_to_broadcast))).
  - vm_compute. reflexivity.
  - vm_compute. discriminate.
Defined.

(** A start command of Alice, who is not the administrator, writes her row. *)
Lemma non_admin_start_changes_table :
  sender (StartCommand alice (Some (slash_start 1))) ≠ Some 9
  ∧ db empty_world !! 1 = None
  ∧ db (process_update 9 reliable 7 (StartCommand alice (Some (slash_start 1)))
          empty_world).2 !! 1
    = Some (mkRow (Some "alice") "Alice" 7 false).
Proof. split; [simpl; congruence|]. vm_compute. done. Qed.

Lemma non_admin_cannot_drive_panel_witness :
  sender (CallbackQuery alice "clean_db") ≠ Some 9
  ∧ db (process_update 9 reliable 0 (CallbackQuery alice "clean_db")
          alice_blocked).2 = db alice_blocked
  ∧ user_data (process_update 9 reliable 0 (AnyMessage (Some alice) (Some hello))
                 ready_to_broadcast).2 = user_data ready_to_broadcast.
Proof.
  split; [simpl; congruence|]. split.
  - exact (proj2 (proj2 (proj2 (proj2
      (non_admin_cannot_drive_panel 9 reliable 0
         (CallbackQuery alice "clean_db") alice_blocked
         ltac:(simpl; congruence)))))).
  - exact (proj1
      (non_admin_cannot_drive_panel 9 reliable 0
         (AnyMessage (Some alice) (Some hello)) ready_to_broadcast
         ltac:(simpl; congruence))).
Defined.

(** The administrator presses the broadcast button while editing the
    panel message fails: the handler raises before it sets the flag, and
    the administrator's next message is ignored although Alice is active. *)
Lemma failed_prompt_ignores_next_message :
  (admin_buttons 9 edit_fails the_admin "broadcast" two_started).1
  = Raise TelegramError
  ∧ get_active_users
      (db (admin_buttons 9 edit_fails the_admin "broadcast" two_started).2)
    = [1; 2]
  ∧ new_calls
      (admin_buttons 9 edit_fails the_admin "broadcast" two_started).2
      (broadcast 9 edit_fails (Some the_admin) (Some hello)
         (admin_buttons 9 edit_fails the_admin "broadcast" two_started).2).2
    = [].
Proof. vm_compute. done. Qed.


(** ** Further properties of the table operations *)

Section store_more.
Implicit Types (db : Store) (r : Row).

Lemma size_block_user u db : size (block_user u db) = size db.
Proof.
  unfold block_user.
  rewrite <-(size_dom (D:=gset Z) (alter set_blocked u db)).
  by rewrite dom_alter_L, size_dom.
Qed.

(** X1.  [block_user] on an identifier the table does not hold changes
    nothing; on a held identifier it sets [is_blocked] and keeps the
    username, the first name and [last_seen].  It never touches another
    row, never changes the number of rows, and blocking twice is blocking
    once. *)
Theorem block_user_changes_only_the_flag (u : Z) (db : Store) :
  match db !! u with
  | None => block_user u db = db
  | Some r =>
      block_user u db !! u
      = Some (mkRow (username r) (first_name r) (last_seen r) true)
  end
  ∧ (∀ j, j ≠ u → block_user u db !! j = db !! j)
  ∧ size (block_user u db) = size db
  ∧ block_user u (block_user u db) = block_user u db.
Proof.
  split_and!.
  - destruct (db !! u) as [r|] eqn:E.
    + by rewrite lookup_block_user, decide_True, E.
    + apply map_eq. intros i. rewrite lookup_block_user.
      case_decide; [subst; by rewrite E|done].
  - intros j Hj. by rewrite lookup_block_user, decide_False.
  - apply size_block_user.
  - apply map_eq. intros i. rewrite !lookup_block_user.
    case_decide; [|done]. by destruct (db !! i).
Qed.

(** X2.  The list [get_active_users] returns holds exactly the identifiers of
    the rows whose [is_blocked] is 0, each once, and its length is the
    active count of [get_stats]. *)
Theorem active_users_are_the_unblocked_ids (db : Store) :
  (∀ i, i ∈ get_active_users db
        ↔ ∃ r, db !! i = Some r ∧ is_blocked r = false)
  ∧ NoDup (get_active_users db)
  ∧ Z.of_nat (length (get_active_users db)) = (get_stats db).1.2.
Proof.
  split_and!.
  - intros i. rewrite elem_of_get_active_users. split.
    + intros H. destruct (db !! i) as [r|]; simpl in H; [|done].
      exists r. split; [done|congruence].
    + intros (r & -> & Hr). simpl. by rewrite Hr.
  - apply NoDup_get_active_users.
  - simpl. by rewrite length_get_active_users.
Qed.

(** X3.  How an upsert and a block move an identifier in and out of the list of
    active users: an upsert adds the identifier and removes none, a block
    removes the identifier and adds none; a block after an upsert keeps the
    written names, and an upsert overwrites an earlier block. *)
Theorem upsert_and_block_on_active_users (now u : Z) (un : option string)
    (fn : string) (db : Store) :
  (∀ i, i ∈ get_active_users (add_or_update_user now u un fn db)
        ↔ i = u ∨ i ∈ get_active_users db)
  ∧ (∀ i, i ∈ get_active_users (block_user u db)
          ↔ i ≠ u ∧ i ∈ get_active_users db)
  ∧ block_user u (add_or_update_user now u un fn db) !! u
    = Some (mkRow un fn now true)
  ∧ add_or_update_user now u un fn (block_user u db)
    = add_or_update_user now u un fn db.
Proof.
  split_and!.
  - intros i. rewrite !elem_of_get_active_users.
    unfold add_or_update_user. rewrite lookup_insert.
    case_decide as Hi; [subst i; simpl; by split; [left|]|].
    split; [by right|]. by intros [?|?].
  - intros i. rewrite !elem_of_get_active_users, lookup_block_user.
    case_decide as Hi; [subst i|].
    + split; [|by intros [? _]]. by destruct (db !! u).
    + split; [by split; [congruence|]|by intros [_ ?]].
  - rewrite lookup_block_user, decide_True by done.
    unfold add_or_update_user. by rewrite lookup_insert_eq.
  - unfold add_or_update_user, block_user. apply insert_alter_eq.
Qed.

(** X4.  A second [clean_blocked] deletes nothing; a purge leaves the list of
    active users as it is; a user blocked before the purge is gone after
    it and a user upserted before the purge is kept. *)
Theorem clean_blocked_is_idempotent (db : Store) :
  clean_blocked (clean_blocked db).2 = (0, (clean_blocked db).2)
  ∧ get_active_users (clean_blocked db).2 = get_active_users db
  ∧ (∀ u, (clean_blocked (block_user u db)).2 !! u = None)
  ∧ ∀ now u un fn,
      (clean_blocked (add_or_update_user now u un fn db)).2 !! u
      = Some (mkRow un fn now false).
Proof.
  unfold clean_blocked. simpl. split_and!.
  - by rewrite active_rows_no_blocked, active_rows_idemp, map_size_empty.
  - unfold get_active_users. by rewrite active_rows_idemp.
  - intros u. rewrite lookup_active_rows, lookup_block_user.
    rewrite decide_True by done. by destruct (db !! u).
  - intros now u un fn. rewrite lookup_active_rows.
    unfold add_or_update_user. by rewrite lookup_insert_eq.
Qed.

Lemma size_active_insert_active u r db :
  is_blocked r = false →
  size (active_rows (<[u := r]> db))
  = match db !! u with
    | Some r' => if is_blocked r' then S (size (active_rows db))
                 else size (active_rows db)
    | None => S (size (active_rows db))
    end.
Proof.
  intros Hr. unfold active_rows at 1.
  rewrite map_filter_insert_True by done. fold (active_rows db).
  rewrite map_size_insert, lookup_active_rows.
  destruct (db !! u) as [r'|]; simpl; [|done]. by destruct (is_blocked r').
Qed.

Lemma size_active_block_user u db :
  size (active_rows (block_user u db))
  = match db !! u with
    | Some r => if is_blocked r then size (active_rows db)
                else pred (size (active_rows db))
    | None => size (active_rows db)
    end.
Proof.
  destruct (db !! u) as [r|] eqn:E.
  - unfold block_user. rewrite <-(insert_id db u r E) at 1.
    rewrite alter_insert_eq. unfold active_rows at 1.
    rewrite map_filter_insert_False by (simpl; congruence).
    rewrite map_filter_delete. fold (active_rows db).
    rewrite map_size_delete, lookup_active_rows, E. simpl.
    by destruct (is_blocked r).
  - unfold block_user. by rewrite alter_id'.
Qed.

(** X5.  The statistics after an upsert and after a block.  An upsert of a new
    identifier adds one to total and active; of a blocked identifier, it
    moves one from blocked to active; of an active identifier, it changes
    no count.  A block of an active identifier moves one from active to
    blocked and changes no count otherwise. *)
Theorem stats_after_upsert_and_block (now u : Z) (un : option string)
    (fn : string) (db : Store) :
  let total := (get_stats db).1.1 in
  let active := (get_stats db).1.2 in
  let blocked := (get_stats db).2 in
  get_stats (add_or_update_user now u un fn db)
  = match db !! u with
    | None => (total + 1, active + 1, blocked)
    | Some r => if is_blocked r then (total, active + 1, blocked - 1)
                else (total, active, blocked)
    end
  ∧ get_stats (block_user u db)
    = match db !! u with
      | Some r => if is_blocked r then (total, active, blocked)
                  else (total, active - 1, blocked + 1)
      | None => (total, active, blocked)
      end.
Proof.
  simpl. unfold get_stats, add_or_update_user. split.
  - rewrite size_active_insert_active by done. rewrite map_size_insert.
    destruct (db !! u) as [r|]; simpl; [destruct (is_blocked r)|];
      (apply injective_projections; simpl;
       [apply injective_projections; simpl|]; lia).
  - rewrite size_active_block_user, size_block_user.
    destruct (db !! u) as [r|] eqn:E; [|done].
    destruct (is_blocked r) eqn:B; [done|].
    assert (size (active_rows db) ≠ 0%nat).
    { apply map_size_non_empty_iff. intros Hempty.
      pose proof (lookup_active_rows db u) as H.
      rewrite Hempty, lookup_empty, E in H. simpl in H. by rewrite B in H. }
    apply injective_projections; simpl;
      [apply injective_projections; simpl|]; lia.
Qed.
End store_more.

(** ** Further properties of the handlers *)

Section handlers_more.
Variable ADMIN_ID : Z.
Variable bot : Transport.
Variable now : Z.

Local Ltac case_call :=
  match goal with
  | |- context [bot ?k ?c] => destruct (bot k c) as [[]|] eqn:?; simpl
  end.

Local Ltac new_calls_simpl :=
  simpl; rewrite <-?app_assoc; rewrite ?new_calls_app, ?new_calls_refl;
  simpl.

Lemma active_count_positive (db : Store) i :
  i ∈ get_active_users db → 1 ≤ (get_stats db).1.2.
Proof.
  intros Hi. simpl. rewrite <-length_get_active_users.
  destruct (get_active_users db); [by apply elem_of_nil in Hi|simpl; lia].
Qed.

Lemma blocked_count_nonneg (db : Store) : 0 ≤ (get_stats db).2.
Proof. simpl. rewrite (size_split db). lia. Qed.

(** X6.  The start handler first upserts its sender.  On a command
    message it then makes exactly one call, a reply in the chat of the
    command: the panel with the statistics of the table as it is after
    the sender's own upsert for the administrator, the greeting with the
    sender's first name for anyone else.  On an edited command, which
    carries no [update.message], it makes no call and ends with an
    [AttributeError] after the upsert.  In every case the sender is an
    active user afterwards, so the active count is at least one, and
    neither a flag nor the log is written. *)
Theorem start_upserts_then_replies (user : User)
    (message : option Message) (w : World) :
  let r := start ADMIN_ID bot now user message w in
  let stats := get_stats (db r.2) in
  match message with
  | Some m =>
      (new_calls w r.2).*1
      = [reply_text (msg_chat m)
           (if bool_decide (tg_id user = ADMIN_ID)
            then admin_panel_text stats.1.1 stats.1.2 stats.2
            else start_text (tg_first_name user))]
  | None => new_calls w r.2 = [] ∧ r.1 = Raise AttributeError
  end
  ∧ db r.2 = add_or_update_user now (tg_id user) (tg_username user)
               (tg_first_name user) (db w)
  ∧ tg_id user ∈ get_active_users (db r.2)
  ∧ 1 ≤ stats.1.2
  ∧ 0 ≤ stats.2
  ∧ user_data r.2 = user_data w
  ∧ log r.2 = log w.
Proof.
  cbv zeta. rewrite start_upserts.
  assert (Hin : tg_id user ∈ get_active_users
                  (add_or_update_user now (tg_id user) (tg_username user)
                     (tg_first_name user) (db w))).
  { apply elem_of_get_active_users. unfold add_or_update_user.
    by rewrite lookup_insert_eq. }
  split_and!.
  - rewrite start_run. cbv zeta. destruct message as [m|]; simpl.
    + by rewrite new_calls_app.
    + by rewrite new_calls_app_nil.
  - done.
  - done.
  - by eapply active_count_positive.
  - apply blocked_count_nonneg.
  - rewrite start_run. cbv zeta. by destruct message.
  - rewrite start_run. cbv zeta. by destruct message.
Qed.

(** X7.  A button press whose acknowledgement [query.answer()] raises has no
    effect at all, also for the administrator: no purge, no flag, no
    further call; the error leaves the handler. *)
Theorem failed_answer_stops_button_handler (from_user : User)
    (data : string) (w : World) (e : Exn) :
  bot (length (calls w)) (answer None) = Some e →
  admin_buttons ADMIN_ID bot from_user data w
  = (Raise e, mkWorld (db w) (user_data w)
                (calls w ++ [(answer None, Some e)]) (log w)).
Proof. intros H. run_handler. by rewrite H. Qed.

(** X8.  The administrator's clean-up press, once acknowledged, purges the
    blocked rows before it edits the panel message: the rows are deleted
    and the edit reports their number whether or not that edit then
    raises.  The active users and the broadcast flag are as before. *)
Theorem clean_db_press_purges_before_reply (admin : User) (w : World) :
  tg_id admin = ADMIN_ID →
  bot (length (calls w)) (answer None) = None →
  let r := admin_buttons ADMIN_ID bot admin "clean_db" w in
  let report := edit_message_text (cleaned_text (clean_blocked (db w)).1) in
  db r.2 = (clean_blocked (db w)).2
  ∧ new_calls w r.2
    = [(answer None, None);
       (report, bot (S (length (calls w))) report)]
  ∧ r.1 = match bot (S (length (calls w))) report with
          | None => Ret ()
          | Some e => Raise e
          end
  ∧ get_active_users (db r.2) = get_active_users (db w)
  ∧ user_data r.2 = user_data w.
Proof.
  intros Hu Ha. cbv zeta. run_handler. rewrite Ha. simpl.
  rewrite bool_decide_eq_true_2 by done. simpl.
  rewrite length_app, Nat.add_1_r. simpl.
  split_and!; try done.
  - by new_calls_simpl.
  - unfold get_active_users. by rewrite active_rows_idemp.
Qed.

(** X9.  A press of someone else, once acknowledged, is answered with the
    "not allowed" alert and nothing else; a press of the administrator
    with data other than the two buttons is acknowledged and nothing
    else.  Neither writes the table, a flag or the log. *)
Theorem other_presses_change_nothing (from_user : User) (data : string)
    (w : World) :
  tg_id from_user ≠ ADMIN_ID ∨ (data ≠ "broadcast" ∧ data ≠ "clean_db") →
  bot (length (calls w)) (answer None) = None →
  let r := admin_buttons ADMIN_ID bot from_user data w in
  (new_calls w r.2).*1
  = (if bool_decide (tg_id from_user = ADMIN_ID) then [answer None]
     else [answer None; answer (Some not_allowed_text)])
  ∧ db r.2 = db w ∧ user_data r.2 = user_data w ∧ log r.2 = log w.
Proof.
  intros Hwho Ha. cbv zeta. run_handler. rewrite Ha. simpl.
  destruct (bool_decide (tg_id from_user = ADMIN_ID)) eqn:Eu; simpl.
  - apply bool_decide_eq_true in Eu.
    destruct Hwho as [?|[Hb Hc]]; [done|].
    rewrite !bool_decide_eq_false_2 by done. by new_calls_simpl.
  - by new_calls_simpl.
Qed.

(** X10.  A join request makes one or two calls: first the approval, once, and
    then, only when the approval returned, the welcome message to the
    requester.  No other user is contacted, no flag is written, and no
    row other than the requester's is touched.  Every user who was active
    stays active, and an approved requester is active afterwards even
    when the welcome message raised [Forbidden]. *)
Theorem join_request_approves_then_welcomes (user : User) (chat : Chat)
    (w : World) :
  let r := handle_join_request bot now user chat w in
  let approve := approve_chat_join_request (chat_id chat) (tg_id user) in
  let welcome := send_message (tg_id user)
                   (welcome_text (tg_first_name user) (title chat)) in
  (new_calls w r.2).*1
  = match bot (length (calls w)) approve with
    | None => [approve; welcome]
    | Some _ => [approve]
    end
  ∧ user_data r.2 = user_data w
  ∧ (∀ i, i ≠ tg_id user → db r.2 !! i = db w !! i)
  ∧ (∀ i, i ∈ get_active_users (db w) → i ∈ get_active_users (db r.2))
  ∧ match bot (length (calls w)) approve with
    | None => tg_id user ∈ get_active_users (db r.2)
    | Some _ => db r.2 = db w
    end.
Proof.
  cbv zeta. rewrite handle_join_request_run. cbv zeta.
  destruct (bot (length (calls w)) _) as [e|] eqn:E; simpl.
  - split_and!; try done. by new_calls_simpl.
  - split_and!; try done.
    + by new_calls_simpl.
    + intros i Hi. unfold add_or_update_user. by rewrite lookup_insert_ne.
    + intros i. rewrite !elem_of_get_active_users.
      unfold add_or_update_user. rewrite lookup_insert.
      by case_decide.
    + apply elem_of_get_active_users. unfold add_or_update_user.
      by rewrite lookup_insert_eq.
Qed.

(** X11.  When the approval returned and the welcome message raises an error
    other than [Forbidden], the inner [try] does not catch it and the
    outer one logs it as an error of the approval; the handler still
    returns and the requester's row has been written. *)
Theorem welcome_error_is_logged_as_approval_error (user : User)
    (chat : Chat) (w : World) :
  bot (length (calls w))
    (approve_chat_join_request (chat_id chat) (tg_id user)) = None →
  bot (S (length (calls w)))
    (send_message (tg_id user)
       (welcome_text (tg_first_name user) (title chat)))
  = Some TelegramError →
  let r := handle_join_request bot now user chat w in
  r.1 = Ret ()
  ∧ log r.2 = log w ++ [error_approving TelegramError]
  ∧ db r.2 !! tg_id user
    = Some (mkRow (tg_username user) (tg_first_name user) now false).
Proof.
  intros Ha Hw. cbv zeta. rewrite handle_join_request_run. cbv zeta.
  rewrite Ha, Hw. simpl. split_and!; try done.
  unfold add_or_update_user. by rewrite lookup_insert_eq.
Qed.
End handlers_more.

(** ** Further properties of the broadcast workflow *)

Section broadcast_more.
Variable ADMIN_ID : Z.
Variable bot : Transport.
Variable now : Z.

Local Abbreviation block_all := (foldl (λ d u, block_user u d)).
Local Abbreviation handle := (process_update ADMIN_ID bot now).

Local Ltac case_call :=
  match goal with
  | |- context [bot ?k ?c] => destruct (bot k c) as [[]|] eqn:?; simpl
  end.

Lemma size_block_all l : ∀ db : Store, size (block_all db l) = size db.
Proof.
  induction l as [|u l IH]; intros db; cbn [foldl]; [done|].
  by rewrite IH, size_block_user.
Qed.

(** X12.  The text a broadcast carries is the text of the captured message
    when that is not empty, else its caption when that is not empty, and
    else the empty string; it is empty exactly when both are missing or
    empty. *)
Theorem captured_text_prefers_text (msg : Message) :
  (∀ t, text msg = Some t → t ≠ "" → captured_text msg = t)
  ∧ (∀ c, text msg = None ∨ text msg = Some "" → caption msg = Some c →
          captured_text msg = c)
  ∧ (captured_text msg = ""
     ↔ (text msg = None ∨ text msg = Some "")
       ∧ (caption msg = None ∨ caption msg = Some "")).
Proof.
  unfold captured_text, str_or. split_and!.
  - intros t -> Ht. by rewrite bool_decide_eq_false_2.
  - intros c [->| ->] ->; simpl; by destruct (bool_decide (c = "")) eqn:E;
      [apply bool_decide_eq_true in E|].
  - destruct (text msg) as [t|], (caption msg) as [c|]; simpl;
      repeat case_bool_decide; subst; intuition congruence.
Qed.


(** X14.  A pass over a table without active users makes a single call, the
    summary with zero sent and zero failed, leaves the table as it is and
    still uses up the awaited broadcast. *)
Theorem pass_without_active_users (admin : User) (msg : Message)
    (w : World) :
  tg_id admin = ADMIN_ID → awaiting w ADMIN_ID = true →
  get_active_users (db w) = [] →
  let w' := (broadcast ADMIN_ID bot (Some admin) (Some msg) w).2 in
  (new_calls w w').*1 = [reply_text (msg_chat msg) (broadcast_done_text 0 0)]
  ∧ db w' = db w
  ∧ awaiting w' ADMIN_ID = false.
Proof.
  intros Hu Hw He. cbv zeta.
  rewrite (broadcast_run _ _ _ _ _ Hu Hw). cbv zeta. cbn [snd].
  rewrite He. simpl. rewrite new_calls_app. split_and!; try done.
  unfold awaiting. simpl. rewrite lookup_insert_eq. simpl.
  by rewrite lookup_insert_eq.
Qed.

(** X15.  After a pass the active users are those of before without the ones
    whose delivery raised [Forbidden]; the total count is unchanged, the
    active count has dropped and the blocked count has grown by their
    number. *)
Theorem pass_moves_forbidden_to_blocked (admin : User) (msg : Message)
    (w : World) :
  tg_id admin = ADMIN_ID → awaiting w ADMIN_ID = true →
  let A := attempts bot msg (captured_text msg) (length (calls w))
             (get_active_users (db w)) in
  let forbidden := with_outcome (Some Forbidden) A in
  let K := Z.of_nat (length forbidden) in
  let w' := (broadcast ADMIN_ID bot (Some admin) (Some msg) w).2 in
  (∀ i, i ∈ get_active_users (db w')
        ↔ i ∈ get_active_users (db w) ∧ i ∉ forbidden)
  ∧ get_stats (db w')
    = ((get_stats (db w)).1.1, (get_stats (db w)).1.2 - K,
       (get_stats (db w)).2 + K).
Proof.
  intros Hu Hw. cbv zeta.
  rewrite (broadcast_run _ _ _ _ _ Hu Hw). cbv zeta. cbn [snd db].
  set (A := attempts bot msg (captured_text msg) (length (calls w))
              (get_active_users (db w))).
  split.
  - intros i. rewrite !elem_of_get_active_users, lookup_block_all.
    case_decide as Hi.
    + split; [|by intros [_ ?]]. by destruct (db w !! i).
    + split; [by split|by intros [? _]].
  - assert (Hb : size (blocked_rows
                         (block_all (db w) (with_outcome (Some Forbidden) A)))
                 = (size (blocked_rows (db w))
                    + length (with_outcome (Some Forbidden) A))%nat).
    { apply size_blocked_block_all.
      - eapply sublist_NoDup; [apply NoDup_get_active_users|].
        apply with_outcome_sublist.
      - intros i Hi. apply elem_of_get_active_users.
        eapply elem_of_sublist; [exact Hi|apply with_outcome_sublist]. }
    pose proof (size_split (block_all (db w)
                              (with_outcome (Some Forbidden) A))) as Hs.
    pose proof (size_split (db w)) as Hs0.
    rewrite size_block_all in Hs. unfold get_stats. cbn [fst snd].
    rewrite size_block_all.
    apply injective_projections; simpl;
      [apply injective_projections; simpl|]; lia.
Qed.
End broadcast_more.

(** ** What an update can and cannot do *)

Section update_invariants.
Variable ADMIN_ID : Z.
Variable bot : Transport.
Variable now : Z.

Local Abbreviation block_all := (foldl (λ d u, block_user u d)).
Local Abbreviation handle := (process_update ADMIN_ID bot now).

Local Ltac case_call :=
  match goal with
  | |- context [bot ?k ?c] => destruct (bot k c) as [[]|] eqn:?; simpl
  end.

Lemma awaiting_after_set d ud cs lg a b v (w : World) :
  user_data w = ud →
  awaiting (mkWorld d (<[a := <["broadcast" := b]>
                                (default ∅ (ud !! a))]> ud) cs lg) v
  = if decide (a = v) then b else awaiting w v.
Proof.
  intros <-. unfold awaiting. simpl. rewrite lookup_insert.
  case_decide; [|done]. simpl. rewrite lookup_insert_eq. by destruct b.
Qed.

Lemma unchanged_lookup {A} (x : option A) (P Q : Prop) :
  (x = None → is_Some x → P) ∧ (is_Some x → x = None → Q).
Proof.
  split.
  - intros -> [y Hy]. discriminate.
  - intros [y ->]. discriminate.
Qed.

(** X16.  A row appears only as the row of the sender of a start command or of
    a join request; a row disappears only when the administrator presses
    the clean-up button, and then it was blocked.  No other update adds or
    removes a row. *)
Theorem rows_appear_and_vanish_only_by (u : Update) (w : World) (i : Z) :
  (db w !! i = None → is_Some (db (handle u w).2 !! i) →
   match u with
   | StartCommand user _ | ChatJoinRequest user _ => i = tg_id user
   | CallbackQuery _ _ | AnyMessage _ _ => False
   end)
  ∧ (is_Some (db w !! i) → db (handle u w).2 !! i = None →
     ∃ user, u = CallbackQuery user "clean_db" ∧ tg_id user = ADMIN_ID
             ∧ is_blocked <$> db w !! i = Some true).
Proof.
  destruct u as [user m|user chat|user data|ou om]; simpl.
  - rewrite start_upserts. unfold add_or_update_user. rewrite lookup_insert.
    case_decide; [by split|apply unchanged_lookup].
  - rewrite handle_join_request_run. cbv zeta.
    unfold add_or_update_user. case_call; try apply unchanged_lookup.
    rewrite lookup_insert. case_decide; [by split|apply unchanged_lookup].
  - run_handler. case_call; try apply unchanged_lookup.
    destruct (bool_decide (tg_id user = ADMIN_ID)) eqn:Eu; simpl;
      [|apply unchanged_lookup].
    destruct (bool_decide (data = "broadcast")); simpl;
      [case_call; apply unchanged_lookup|].
    destruct (bool_decide (data = "clean_db")) eqn:Ed; simpl;
      [|apply unchanged_lookup].
    apply bool_decide_eq_true in Eu, Ed. subst data.
    rewrite lookup_active_rows. split.
    + intros ->. simpl. by intros [].
    + intros [r Hr] HN. exists user. split_and!; try done.
      rewrite Hr in *. simpl in *. by destruct (is_blocked r).
  - destruct (broadcast_cases ADMIN_ID bot ou om w)
      as [(r & Hb & Hr)|[(user & -> & -> & Hu & Hw)
                        |(user & msg & -> & -> & Hu & Hw)]].
    { rewrite Hb. apply unchanged_lookup. }
    { rewrite (broadcast_no_message _ _ _ _ Hu Hw).
      apply unchanged_lookup. }
    rewrite (broadcast_run _ _ _ _ _ Hu Hw). cbv zeta. cbn [snd db].
    rewrite lookup_block_all. split.
    + intros ->. case_decide; simpl; by intros [].
    + intros [r ->]. by case_decide.
Qed.

Lemma flag_change_cases (u : Update) (w : World) (v : Z) :
  (awaiting w v = false → awaiting (handle u w).2 v = true →
   v = ADMIN_ID
   ∧ ∃ user, u = CallbackQuery user "broadcast" ∧ tg_id user = ADMIN_ID)
  ∧ (awaiting w v = true → awaiting (handle u w).2 v = false →
     v = ADMIN_ID
     ∧ ∃ user msg, u = AnyMessage (Some user) msg
                   ∧ tg_id user = ADMIN_ID).
Proof.
  assert (Hsame : ∀ w', user_data w' = user_data w →
            (awaiting w v = false → awaiting w' v = true →
             v = ADMIN_ID
             ∧ ∃ user, u = CallbackQuery user "broadcast"
                       ∧ tg_id user = ADMIN_ID)
            ∧ (awaiting w v = true → awaiting w' v = false →
               v = ADMIN_ID
               ∧ ∃ user msg, u = AnyMessage (Some user) msg
                             ∧ tg_id user = ADMIN_ID)).
  { intros w' Hw'. rewrite (awaiting_user_data _ _ _ Hw').
    split; congruence. }
  destruct u as [user m|user chat|user data|ou om].
  - apply Hsame. by apply user_data_preserved.
  - apply Hsame. by apply user_data_preserved.
  - destruct (decide (tg_id user = ADMIN_ID)) as [Hu|Hu];
      [|apply Hsame; by apply user_data_preserved].
    simpl. run_handler. case_call; try (by apply Hsame).
    rewrite bool_decide_eq_true_2 by done. simpl.
    destruct (bool_decide (data = "broadcast")) eqn:Ed; simpl.
    + apply bool_decide_eq_true in Ed. subst data.
      case_call; try (by apply Hsame).
      rewrite (awaiting_after_set _ (user_data w) _ _ _ _ _ w eq_refl).
      case_decide; [|split; congruence]. subst v. split; [|congruence].
      intros _ _. split; [done|]. by exists user.
    + destruct (bool_decide (data = "clean_db")); simpl; by apply Hsame.
  - simpl.
    destruct (broadcast_cases ADMIN_ID bot ou om w)
      as [(r & Hb & Hr)|[(user & -> & -> & Hu & Hw)
                        |(user & msg & -> & -> & Hu & Hw)]].
    + rewrite Hb. by apply Hsame.
    + rewrite (broadcast_no_message _ _ _ _ Hu Hw).
      unfold captured, user_data_set. cbv zeta. cbn [snd].
      rewrite (awaiting_after_set _ (user_data w) _ _ _ _ _ w eq_refl).
      case_decide; [|split; congruence]. subst v. split; [congruence|].
      intros _ _. split; [done|]. by exists user, None.
    + rewrite (broadcast_run _ _ _ _ _ Hu Hw). cbv zeta. cbn [snd].
      rewrite (awaiting_after_set _ (user_data w) _ _ _ _ _ w eq_refl).
      case_decide; [|split; congruence]. subst v. split; [congruence|].
      intros _ _. split; [done|]. by exists user, (Some msg).
Qed.

(** X17.  The awaiting flag of a user is raised only for the administrator, by
    the administrator's own broadcast press, and is lowered only by a
    generic message of the administrator.  Start commands, join requests,
    the clean-up press and everything other users send leave every flag
    as it is. *)
Theorem flag_changes_only_by_admin (u : Update) (w : World) (v : Z) :
  (awaiting w v = false → awaiting (handle u w).2 v = true →
   v = ADMIN_ID
   ∧ ∃ user, u = CallbackQuery user "broadcast" ∧ tg_id user = ADMIN_ID)
  ∧ (awaiting w v = true → awaiting (handle u w).2 v = false →
     v = ADMIN_ID
     ∧ ∃ user msg, u = AnyMessage (Some user) msg
                   ∧ tg_id user = ADMIN_ID).
Proof. apply flag_change_cases. Qed.

(** X18.  Only the administrator is ever awaiting broadcast content: if no
    other user is awaiting in a state, none is after any sequence of
    updates, whatever the transport does. *)
Theorem only_admin_ever_awaits (us : list Update) (w : World) :
  (∀ v, v ≠ ADMIN_ID → awaiting w v = false) →
  ∀ v, v ≠ ADMIN_ID → awaiting (run ADMIN_ID bot now us w) v = false.
Proof.
  revert w. induction us as [|u us IH]; intros w Hw v Hv; [by apply Hw|].
  unfold run. cbn [foldl]. apply IH; [|done].
  intros v' Hv'. destruct (awaiting (handle u w).2 v') eqn:E; [|done].
  destruct (proj1 (flag_change_cases u w v') (Hw v' Hv') E)
    as [? _]. done.
Qed.
Lemma stays_awaiting us : ∀ w,
  Forall (not_admin_message ADMIN_ID) us →
  awaiting w ADMIN_ID = true →
  awaiting (run ADMIN_ID bot now us w) ADMIN_ID = true.
Proof.
  induction us as [|u us IH]; intros w Hus Hw; [done|].
  apply Forall_cons in Hus as [Hu Hus]. unfold run. cbn [foldl].
  apply IH; [done|].
  destruct (awaiting (handle u w).2 ADMIN_ID) eqn:E; [done|].
  destruct (proj2 (flag_change_cases u w ADMIN_ID) Hw E)
    as (_ & user & msg & -> & Hadm).
  simpl in Hu. congruence.
Qed.

Lemma stays_idle us : ∀ w,
  Forall (not_broadcast_press ADMIN_ID) us →
  awaiting w ADMIN_ID = false →
  awaiting (run ADMIN_ID bot now us w) ADMIN_ID = false.
Proof.
  induction us as [|u us IH]; intros w Hus Hw; [done|].
  apply Forall_cons in Hus as [Hu Hus]. unfold run. cbn [foldl].
  apply IH; [done|].
  destruct (awaiting (handle u w).2 ADMIN_ID) eqn:E; [|done].
  destruct (proj1 (flag_change_cases u w ADMIN_ID) Hw E)
    as (_ & user & -> & Hadm).
  simpl in Hu. by destruct Hu.
Qed.

Lemma awaiting_captured w : awaiting (captured ADMIN_ID w) ADMIN_ID = false.
Proof.
  unfold captured, user_data_set. cbv zeta. cbn [snd].
  rewrite (awaiting_after_set _ (user_data w) _ _ _ _ _ w eq_refl).
  by rewrite decide_True.
Qed.

(** C9, as the code has it.  When the handling of the administrator's
    broadcast button press returns, the administrator is awaiting
    content, and stays so through every update other than an update of
    the administrator in the generic handler.  When the next such update
    carries a message, that message is the payload.  The flag is reset
    before the pass: the whole pass, every delivery and the summary, runs
    from the state in which the flag is already reset and no call has yet
    been made, and the pass writes no flag.  The message is delivered to
    every active user and reported, and afterwards the administrator is
    not awaiting content, whatever the transport answered to the
    deliveries and to the summary.  This lasts through every update
    other than the administrator's press of the broadcast button, so a
    later update of the administrator in the generic handler is ignored:
    no call is made and nothing changes. *)
Theorem next_admin_message_is_payload (admin : User) (m1 : Message)
    (m2 : option Message) (before between : list Update) (w : World) :
  tg_id admin = ADMIN_ID →
  Forall (not_admin_message ADMIN_ID) before →
  Forall (not_broadcast_press ADMIN_ID) between →
  (admin_buttons ADMIN_ID bot admin "broadcast" w).1 = Ret () →
  let w1 := run ADMIN_ID bot now before
              (admin_buttons ADMIN_ID bot admin "broadcast" w).2 in
  let w2 := (broadcast ADMIN_ID bot (Some admin) (Some m1) w1).2 in
  let w3 := run ADMIN_ID bot now between w2 in
  awaiting w1 ADMIN_ID = true
  ∧ broadcast ADMIN_ID bot (Some admin) (Some m1) w1
    = broadcast_pass bot m1 (captured ADMIN_ID w1)
  ∧ awaiting (captured ADMIN_ID w1) ADMIN_ID = false
  ∧ calls (captured ADMIN_ID w1) = calls w1
  ∧ db (captured ADMIN_ID w1) = db w1
  ∧ (∀ w0, user_data (broadcast_pass bot m1 w0).2 = user_data w0)
  ∧ (new_calls w1 w2).*1
    = map (deliver m1 (captured_text m1)) (get_active_users (db w1))
        ++ [summary m1 (attempts bot m1 (captured_text m1)
                          (length (calls w1)) (get_active_users (db w1)))]
  ∧ awaiting w2 ADMIN_ID = false
  ∧ broadcast ADMIN_ID bot (Some admin) m2 w3 = (Ret (), w3).
Proof.
  intros Hu Hbefore Hbetween Hpress. cbv zeta.
  set (w1 := run ADMIN_ID bot now before _).
  assert (H1 : awaiting w1 ADMIN_ID = true).
  { apply stays_awaiting; [done|]. by apply press_broadcast_returns. }
  assert (H2 : awaiting (broadcast ADMIN_ID bot (Some admin) (Some m1) w1).2
                 ADMIN_ID = false).
  { rewrite (broadcast_captures _ _ _ _ _ Hu H1), broadcast_pass_run.
    cbv zeta. cbn [snd].
    rewrite <-(awaiting_captured w1). by apply awaiting_user_data. }
  split_and!; try done.
  - by apply broadcast_captures.
  - apply awaiting_captured.
  - intros w0. by rewrite broadcast_pass_run.
  - rewrite (broadcast_run _ _ _ _ _ Hu H1). simpl.
    rewrite new_calls_app, fmap_app. simpl. f_equal.
    rewrite <-(fst_attempts bot m1 (captured_text m1)
                 (length (calls w1)) (get_active_users (db w1))) at 2.
    by rewrite <-!list_fmap_compose.
  - apply broadcast_ignored. right. rewrite Hu. by apply stays_idle.
Qed.

(** X19.  An update of the administrator that carries no
    [update.message], such as an edited message, and reaches the generic
    handler while the administrator is awaiting content uses the awaited
    broadcast up: the flag is reset, no call is made, the table is as
    before and the handler ends with an [AttributeError]; the
    administrator's next update in the generic handler is then ignored.
    An update without a sender, such as a channel post, ends with an
    [AttributeError] at once and changes nothing. *)
Theorem update_without_message_uses_up_broadcast (admin : User)
    (next : option Message) (w : World) :
  tg_id admin = ADMIN_ID → awaiting w ADMIN_ID = true →
  let r := broadcast ADMIN_ID bot (Some admin) None w in
  r.1 = Raise AttributeError
  ∧ new_calls w r.2 = []
  ∧ db r.2 = db w
  ∧ awaiting r.2 ADMIN_ID = false
  ∧ broadcast ADMIN_ID bot (Some admin) next r.2 = (Ret (), r.2)
  ∧ ∀ om w0, broadcast ADMIN_ID bot None om w0 = (Raise AttributeError, w0).
Proof.
  intros Hu Hw. cbv zeta. rewrite (broadcast_no_message _ _ _ _ Hu Hw).
  cbn [fst snd]. split_and!; try done.
  - unfold captured, user_data_set. cbv zeta. cbn [snd].
    apply new_calls_app_nil.
  - apply awaiting_captured.
  - apply broadcast_ignored. right. rewrite Hu. apply awaiting_captured.
Qed.
End update_invariants.

(** ** Further concrete runs *)

Lemma failed_answer_stops_button_handler_witness :
  answer_fails (length (calls alice_blocked)) (answer None)
  = Some TelegramError
  ∧ admin_buttons 9 answer_fails the_admin "clean_db" alice_blocked
    = (Raise TelegramError,
       mkWorld (db alice_blocked) (user_data alice_blocked)
         (calls alice_blocked ++ [(answer None, Some TelegramError)])
         (log alice_blocked)).
Proof.
  split; [reflexivity|].
  exact (failed_answer_stops_button_handler 9 answer_fails the_admin
           "clean_db" alice_blocked TelegramError eq_refl).
Defined.

Lemma clean_db_press_purges_before_reply_witness :
  tg_id the_admin = 9
  ∧ edit_fails (length (calls alice_blocked)) (answer None) = None
  ∧ (admin_buttons 9 edit_fails the_admin "clean_db" alice_blocked).1
    = Raise TelegramError
  ∧ db (admin_buttons 9 edit_fails the_admin "clean_db" alice_blocked).2
    = (clean_blocked (db alice_blocked)).2.
Proof.
  split; [reflexivity|]. split; [reflexivity|].
  split; [vm_compute; reflexivity|].
  exact (proj1 (clean_db_press_purges_before_reply 9 edit_fails the_admin
                  alice_blocked eq_refl eq_refl)).
Defined.

Lemma other_presses_change_nothing_witness :
  (tg_id alice ≠ 9 ∨ ("clean_db" ≠ "broadcast" ∧ "clean_db" ≠ "clean_db"))
  ∧ reliable (length (calls alice_blocked)) (answer None) = None
  ∧ (new_calls alice_blocked
       (admin_buttons 9 reliable alice "clean_db" alice_blocked).2).*1
    = [answer None; answer (Some not_allowed_text)].
Proof.
  split; [left; simpl; lia|]. split; [reflexivity|].
  exact (proj1 (other_presses_change_nothing 9 reliable alice "clean_db"
                  alice_blocked ltac:(left; simpl; lia) eq_refl)).
Defined.

Lemma welcome_error_is_logged_as_approval_error_witness :
  welcome_fails (length (calls empty_world))
    (approve_chat_join_request (chat_id channel) (tg_id alice)) = None
  ∧ welcome_fails (S (length (calls empty_world)))
      (send_message (tg_id alice)
         (welcome_text (tg_first_name alice) (title channel)))
    = Some TelegramError
  ∧ log (handle_join_request welcome_fails 0 alice channel empty_world).2
    = [error_approving TelegramError].
Proof.
  split; [reflexivity|]. split; [reflexivity|].
  exact (proj1 (proj2 (welcome_error_is_logged_as_approval_error
                         welcome_fails 0 alice channel empty_world
                         eq_refl eq_refl))).
Defined.

Lemma captured_text_prefers_text_witness :
  captured_text (mkMessage 9 (Some "") (Some "cap") [mkFile "p"] None None)
  = "cap".
Proof.
  apply (proj1 (proj2 (captured_text_prefers_text
                         (mkMessage 9 (Some "") (Some "cap") [mkFile "p"]
                            None None)))).
  - right. reflexivity.
  - reflexivity.
Defined.


Lemma pass_without_active_users_witness :
  tg_id the_admin = 9
  ∧ awaiting nobody_ready 9 = true
  ∧ get_active_users (db nobody_ready) = []
  ∧ (new_calls nobody_ready
       (broadcast 9 reliable (Some the_admin) (Some hello) nobody_ready).2).*1
    = [reply_text 9 (broadcast_done_text 0 0)].
Proof.
  split; [reflexivity|]. split; [vm_compute; reflexivity|].
  split; [vm_compute; reflexivity|].
  exact (proj1 (pass_without_active_users 9 reliable the_admin hello
                  nobody_ready eq_refl ltac:(vm_compute; reflexivity)
                  ltac:(vm_compute; reflexivity))).
Defined.

Lemma pass_moves_forbidden_to_blocked_witness :
  tg_id the_admin = 9
  ∧ awaiting ready_to_broadcast 9 = true
  ∧ get_stats (db ready_to_broadcast) = (2, 2, 0)
  ∧ get_stats
      (db (broadcast 9 (blocked_by 2) (Some the_admin) (Some hello)
             ready_to_broadcast).2) = (2, 1, 1).
Proof.
  split; [reflexivity|]. split; [vm_compute; reflexivity|].
  split; [vm_compute; reflexivity|].
  exact (proj2 (pass_moves_forbidden_to_blocked 9 (blocked_by 2) the_admin
                  hello ready_to_broadcast eq_refl
                  ltac:(vm_compute; reflexivity))).
Defined.

Lemma rows_appear_and_vanish_only_by_witness :
  is_Some (db alice_blocked !! 1)
  ∧ db (process_update 9 reliable 0 (CallbackQuery the_admin "clean_db")
          alice_blocked).2 !! 1 = None
  ∧ ∃ user, CallbackQuery the_admin "clean_db"
            = CallbackQuery user "clean_db"
            ∧ tg_id user = 9
            ∧ is_blocked <$> db alice_blocked !! 1 = Some true.
Proof.
  split; [eexists; vm_compute; reflexivity|].
  split; [vm_compute; reflexivity|].
  apply (proj2 (rows_appear_and_vanish_only_by 9 reliable 0
                  (CallbackQuery the_admin "clean_db") alice_blocked 1)).
  - eexists. vm_compute. reflexivity.
  - vm_compute. reflexivity.
Defined.

Lemma flag_changes_only_by_admin_witness :
  awaiting ready_to_broadcast 9 = true
  ∧ awaiting (process_update 9 reliable 0 (AnyMessage (Some the_admin) (Some hello))
                ready_to_broadcast).2 9 = false
  ∧ ∃ user msg, AnyMessage (Some the_admin) (Some hello)
                = AnyMessage (Some user) msg
                ∧ tg_id user = 9.
Proof.
  split; [vm_compute; reflexivity|]. split; [vm_compute; reflexivity|].
  apply (proj2 (flag_changes_only_by_admin 9 reliable 0
                  (AnyMessage (Some the_admin) (Some hello)) ready_to_broadcast 9)).
  - vm_compute. reflexivity.
  - vm_compute. reflexivity.
Defined.

Lemma only_admin_ever_awaits_witness :
  (∀ v, v ≠ 9 → awaiting empty_world v = false)
  ∧ awaiting (run 9 reliable 0
                [CallbackQuery alice "broadcast";
                 CallbackQuery the_admin "broadcast";
                 AnyMessage (Some alice) (Some hello)] empty_world) 1 = false.
Proof.
  assert (H : ∀ v, v ≠ 9 → awaiting empty_world v = false).
  { intros v _. unfold awaiting, empty_world. simpl.
    rewrite lookup_empty. reflexivity. }
  split; [exact H|].
  apply (only_admin_ever_awaits 9 reliable 0 _ empty_world H 1). lia.
Defined.

Lemma delivery_follows_media_precedence_witness :
  tg_id the_admin = 9
  ∧ awaiting ready_to_broadcast 9 = true
  ∧ map (λ c, delivery_of c.1)
      (new_calls ready_to_broadcast
         (broadcast 9 reliable (Some the_admin) (Some sale)
            ready_to_broadcast).2)
    = [Some (Photo, 1, Some "large", "Sale");
       Some (Photo, 2, Some "large", "Sale"); None].
Proof.
  split; [reflexivity|]. split; [vm_compute; reflexivity|].
  exact (proj2 (delivery_follows_media_precedence 9 reliable the_admin
                  sale ready_to_broadcast eq_refl
                  ltac:(vm_compute; reflexivity))).
Defined.

Lemma only_reply_failures_escape_witness :
  escaping (new_calls two_started
              (process_update 9 unreachable 0
                 (StartCommand the_admin (Some (slash_start 9)))
                 two_started).2) = Some TelegramError
  ∧ (process_update 9 unreachable 0
       (StartCommand the_admin (Some (slash_start 9))) two_started).1
    = Raise TelegramError.
Proof.
  assert (H : escaping (new_calls two_started
                (process_update 9 unreachable 0
                   (StartCommand the_admin (Some (slash_start 9)))
                   two_started).2) = Some TelegramError)
    by (vm_compute; reflexivity).
  split; [exact H|].
  exact (proj2 (proj1 (only_reply_failures_escape 9 unreachable 0
                         (StartCommand the_admin (Some (slash_start 9)))
                         two_started) TelegramError) H).
Defined.

Lemma next_admin_message_is_payload_witness :
  tg_id the_admin = 9
  ∧ (admin_buttons 9 (blocked_by 2) the_admin "broadcast" two_started).1
    = Ret ()
  ∧ awaiting
      (broadcast 9 (blocked_by 2) (Some the_admin) (Some hello)
         (run 9 (blocked_by 2) 0
            [StartCommand the_admin (Some (slash_start 9));
             CallbackQuery the_admin "clean_db";
             AnyMessage (Some alice) (Some again)]
            (admin_buttons 9 (blocked_by 2) the_admin "broadcast"
               two_started).2)).2 9 = false.
Proof.
  split; [reflexivity|]. split; [vm_compute; reflexivity|].
  exact (proj1 (proj2 (proj2 (proj2 (proj2 (proj2 (proj2 (proj2
    (next_admin_message_is_payload 9 (blocked_by 2) 0 the_admin hello
       (Some again)
       [StartCommand the_admin (Some (slash_start 9));
        CallbackQuery the_admin "clean_db";
        AnyMessage (Some alice) (Some again)]
       [CallbackQuery the_admin "clean_db";
        AnyMessage (Some the_admin) None;
        CallbackQuery bob "broadcast"] two_started
       eq_refl
       ltac:(repeat (apply Forall_cons_2;
                       [simpl; first [exact I | congruence]|]);
             apply Forall_nil_2)
       ltac:(repeat (apply Forall_cons_2;
                       [simpl; first [exact I | by left | by right]|]);
             apply Forall_nil_2)
       ltac:(vm_compute; reflexivity)))))))))).
Defined.

Lemma update_without_message_uses_up_broadcast_witness :
  tg_id the_admin = 9
  ∧ awaiting ready_to_broadcast 9 = true
  ∧ (broadcast 9 reliable (Some the_admin) None ready_to_broadcast).1
    = Raise AttributeError
  ∧ broadcast 9 reliable (Some the_admin) (Some hello)
      (broadcast 9 reliable (Some the_admin) None ready_to_broadcast).2
    = (Ret (),
       (broadcast 9 reliable (Some the_admin) None ready_to_broadcast).2).
Proof.
  split; [reflexivity|]. split; [vm_compute; reflexivity|].
  split.
  - exact (proj1 (update_without_message_uses_up_broadcast 9 reliable
                    the_admin (Some hello) ready_to_broadcast eq_refl
                    ltac:(vm_compute; reflexivity))).
  - exact (proj1 (proj2 (proj2 (proj2 (proj2
      (update_without_message_uses_up_broadcast 9 reliable the_admin
         (Some hello) ready_to_broadcast eq_refl
         ltac:(vm_compute; reflexivity))))))).
Defined.
